(** * FortuNet hotspot billing: payment-to-activation workflow

    A shallow embedding of the payment workflow of the FortuNet dashboard:
    - [database.py]            the SQLite store ([Database]),
    - [mpesa_stkpush.py]       the M-Pesa STK push client ([Mpesa]),
    - [flask_api_endpoints.py] the HTTP handlers and the activation
                               helper ([Endpoints]).

    Python values that cross a function boundary are kept as Python has
    them (JSON documents, dictionaries, exceptions); the three remote
    parties (clock, payment gateway, router) are explicit arguments and
    every outbound call is recorded in a trace. *)

From Stdlib Require Import ZArith List String Ascii Bool Lia Floats.
From Stdlib Require Import Sorted Permutation.
Import ListNotations.

Set Warnings "-register-all".

Open Scope string_scope.
Open Scope Z_scope.

(* ===================================================================== *)
(** * Python values, formatted text, exceptions                          *)
(* ===================================================================== *)

Module Py.

(** What [json.loads] / [request.get_json()] / [response.json()] produce. A [VDict]
    lists its items; the first binding of a key is the one the dict holds. *)
Inductive value : Type :=
| VNone
| VBool (b : bool)
| VInt (z : Z)
| VFloat (f : float)
| VStr (s : string)
| VList (items : list value)
| VDict (items : list (string * value)).

(** [type(v).__name__] *)
Definition type_name (v : value) : string :=
  match v with
  | VNone => "NoneType"
  | VBool _ => "bool"
  | VInt _ => "int"
  | VFloat _ => "float"
  | VStr _ => "str"
  | VList _ => "list"
  | VDict _ => "dict"
  end.

(** A point in time: microseconds since 0001-01-01T00:00:00, the order and
    the arithmetic of [datetime.datetime]. *)
Definition datetime := Z.

(** Strings built at run time are kept as the pieces they are built from:
    literals, [str(v)] of a value as an f-string inserts it, a timestamp
    rendered by [strftime('%Y%m%d%H%M%S')], and the hexadecimal SHA-256
    digest of another such string. *)
Inductive piece : Type :=
| Lit (s : string)
| Str (v : value)
| Strftime (t : datetime)
| Sha256Hex (preimage : list piece).

Definition text := list piece.

(** An exception: its class and what [str(e)] gives. *)
Record exn : Type := Exn { exn_class : string; exn_str : text }.

Inductive result (A : Type) : Type :=
| Ok (a : A)
| Raise (e : exn).
Arguments Ok {A} a.
Arguments Raise {A} e.

Definition bind {A B} (m : result A) (k : A -> result B) : result B :=
  match m with
  | Ok a => k a
  | Raise e => Raise e
  end.

Definition Exception (msg : text) : exn := Exn "Exception" msg.

Definition ValueError (msg : string) : exn := Exn "ValueError" [Lit msg].

Definition OverflowError (msg : text) : exn := Exn "OverflowError" msg.

Definition AttributeError (v : value) (attr : string) : exn :=
  Exn "AttributeError"
      [Lit "'"; Lit (type_name v); Lit "' object has no attribute '"; Lit attr; Lit "'"].

Definition KeyError (key : string) : exn :=
  Exn "KeyError" [Lit "'"; Lit key; Lit "'"].

Definition TypeError_not_subscriptable (v : value) : exn :=
  Exn "TypeError" [Lit "'"; Lit (type_name v); Lit "' object is not subscriptable"].

Definition TypeError_indices (v : value) : exn :=
  Exn "TypeError"
      [Lit (match v with
            | VStr _ => "string indices must be integers, not 'str'"
            | _ => "list indices must be integers or slices, not str"
            end)].

Definition TypeError_not_iterable (v : value) : exn :=
  Exn "TypeError" [Lit "argument of type '"; Lit (type_name v); Lit "' is not iterable"].

(** Lookup in the items of a dict. *)
Fixpoint lookup {V : Type} (key : string) (items : list (string * V)) : option V :=
  match items with
  | [] => None
  | (k, v) :: rest => if String.eqb k key then Some v else lookup key rest
  end.

(** [v.get(key, default)] *)
Definition get (v : value) (key : string) (default : value) : result value :=
  match v with
  | VDict items =>
      match lookup key items with
      | Some x => Ok x
      | None => Ok default
      end
  | _ => Raise (AttributeError v "get")
  end.

(** [v[key]] for a string key *)
Definition getitem (v : value) (key : string) : result value :=
  match v with
  | VDict items =>
      match lookup key items with
      | Some x => Ok x
      | None => Raise (KeyError key)
      end
  | VList _ | VStr _ => Raise (TypeError_indices v)
  | _ => Raise (TypeError_not_subscriptable v)
  end.

(** [needle in hay] on strings *)
Fixpoint substring_of (needle hay : string) : bool :=
  String.prefix needle hay ||
  match hay with
  | EmptyString => false
  | String _ hay' => substring_of needle hay'
  end.

(** [key in v] for a string key *)
Definition contains (v : value) (key : string) : result bool :=
  match v with
  | VDict items =>
      Ok (match lookup key items with Some _ => true | None => false end)
  | VList items =>
      Ok (existsb (fun x => match x with VStr s => String.eqb s key | _ => false end) items)
  | VStr s => Ok (substring_of key s)
  | _ => Raise (TypeError_not_iterable v)
  end.

(** [s[1:]] *)
Definition drop_first (s : string) : string :=
  match s with
  | EmptyString => EmptyString
  | String _ rest => rest
  end.

(** [v == 0] *)
Definition eq_zero (v : value) : bool :=
  match v with
  | VInt z => z =? 0
  | VBool b => negb b
  | VFloat f => PrimFloat.eqb f PrimFloat.zero
  | _ => false
  end.

(** Truth value of a Python value, as [if v:] takes it. *)
Definition truthy (v : value) : bool :=
  match v with
  | VNone => false
  | VBool b => b
  | VInt z => negb (z =? 0)
  | VFloat f => negb (PrimFloat.eqb f PrimFloat.zero)
  | VStr s => negb (String.eqb s "")
  | VList items => match items with [] => false | _ => true end
  | VDict items => match items with [] => false | _ => true end
  end.

(** Whether a piece renders as the empty string. *)
Definition piece_empty (p : piece) : bool :=
  match p with
  | Lit s => String.eqb s ""
  | Str (VStr s) => String.eqb s ""
  | _ => false
  end.

(** An item of a dictionary built by the program: a value, or text built
    at run time. *)
Inductive entry : Type :=
| Val (v : value)
| Txt (t : text).

Definition dict := list (string * entry).

Definition entry_truthy (e : entry) : bool :=
  match e with
  | Val v => truthy v
  | Txt t => negb (forallb piece_empty t)
  end.

(** ** Outbound calls

    A computation that talks to a remote party yields the calls it made,
    in order, and its result or the exception it raised. *)
Definition io (C A : Type) : Type := list C * result A.

Definition pure {C A} (r : result A) : io C A := ([], r).

Definition io_bind {C A B} (m : io C A) (k : A -> io C B) : io C B :=
  match m with
  | (made, Ok a) => let '(more, r) := k a in ((made ++ more)%list, r)
  | (made, Raise e) => (made, Raise e)
  end.

(** [try: m  except Exception as e: handler e] *)
Definition try_except {C A} (m : io C A) (handler : exn -> io C A) : io C A :=
  match m with
  | (made, Ok a) => (made, Ok a)
  | (made, Raise e) => let '(more, r) := handler e in ((made ++ more)%list, r)
  end.

End Py.

Notation "x <- m ;; k" := (Py.bind m (fun x => k))
  (at level 61, m at next level, right associativity).
Notation "x <~ m ;; k" := (Py.io_bind m (fun x => k))
  (at level 61, m at next level, right associativity).

(* ===================================================================== *)
(** * database.py: the SQLite store                                      *)
(* ===================================================================== *)

Module Database.
Import Py.

(** A column value as [sqlite3] hands it to Python. The prices of the
    catalogue are whole shillings, which the NUMERIC affinity of
    [DECIMAL(10,2)] stores as integers; the amount of a transaction is a
    [numeric], below. *)
Inductive sqlval : Type :=
| SNull
| SInt (z : Z)
| SText (s : string)
| SFormatted (t : text)
| STimestamp (t : datetime).

(** [dict(row)]: column name to value, in SELECT order. *)
Definition row := list (string * sqlval).

Definition nullable {A : Type} (f : A -> sqlval) (o : option A) : sqlval :=
  match o with
  | Some a => f a
  | None => SNull
  end.

Definition SBool (b : bool) : sqlval := SInt (if b then 1 else 0).

(** ** Binding parameters *)

(** [sqlite3] binds a Python [int] as a signed 64-bit INTEGER and raises
    [OverflowError] for any other. *)
Definition int64_min : Z := - 2 ^ 63.
Definition int64_max : Z := 2 ^ 63 - 1.

Definition fits_int64 (z : Z) : bool := (int64_min <=? z) && (z <=? int64_max).

Definition int_too_large : exn :=
  OverflowError [Lit "Python int too large to convert to SQLite INTEGER"].

Definition bind_int (z : Z) : result Z :=
  if fits_int64 z then Ok z else Raise int_too_large.

(** What a column of NUMERIC affinity holds of a number: an INTEGER or a
    REAL. *)
Inductive numeric : Type :=
| Integer (z : Z)
| Real (f : float).

(** The whole number a finite float with mantissa [m] and exponent [e]
    stands for, if it is one. *)
Definition whole (m : positive) (e : Z) : option Z :=
  if 0 <=? e
  then Some (Z.pos m * 2 ^ e)
  else if Z.pos m mod 2 ^ (- e) =? 0
       then Some (Z.pos m / 2 ^ (- e))
       else None.

(** A Python [float] bound to a column of NUMERIC affinity: NaN is bound
    as NULL; a float that is a whole number strictly between the ends of
    the 64-bit range is stored as that INTEGER, either zero as 0; any
    other float stays a REAL. *)
Definition numeric_affinity (f : float) : option numeric :=
  match Prim2SF f with
  | S754_nan => None
  | S754_zero _ => Some (Integer 0)
  | S754_infinity _ => Some (Real f)
  | S754_finite negative m e =>
      match whole m e with
      | Some z =>
          if z <? 2 ^ 63
          then Some (Integer (if negative then - z else z))
          else Some (Real f)
      | None => Some (Real f)
      end
  end.

(** An item of a dictionary about a transaction: a column value, or a
    Python [float]. *)
Inductive cell : Type :=
| Plain (v : sqlval)
| Float (f : float).

Definition numeric_cell (n : numeric) : cell :=
  match n with
  | Integer z => Plain (SInt z)
  | Real f => Float f
  end.

(** ** Tables *)

Record user : Type := mkUser {
  u_id : Z;
  u_username : option string;
  u_password : option text;
  u_phone_number : string;
  u_email : option string;
  u_mac_address : option string;
  u_created_at : datetime;
  u_last_login : option datetime;
  u_is_active : bool;
  u_mikrotik_user_id : option string;
  u_current_package_id : option Z;
  u_package_expires_at : option datetime
}.

Record package : Type := mkPackage {
  p_id : Z;
  p_name : string;
  p_description : option string;
  p_price : Z;
  p_duration_hours : Z;
  p_data_limit_gb : option Z;
  p_speed_limit_mbps : option Z;
  p_package_type : string;
  p_is_active : bool;
  p_created_at : datetime
}.

Record transaction : Type := mkTransaction {
  t_id : Z;
  t_user_id : Z;
  t_package_id : Z;
  t_amount : numeric;
  t_payment_method : string;
  t_transaction_id : option string;
  t_status : string;
  t_phone_number : string;
  t_created_at : datetime;
  t_completed_at : option datetime
}.

(** A table with [INTEGER PRIMARY KEY AUTOINCREMENT]: its rows in rowid
    order and the largest rowid ever handed out. *)
Record table (R : Type) : Type := Table {
  rows : list R;
  last_rowid : Z
}.
Arguments Table {R} rows last_rowid.
Arguments rows {R} t.
Arguments last_rowid {R} t.

(** The store. The fourth table, [user_sessions], has no operation in
    [database.py] and is left out. *)
Record DB : Type := mkDB {
  users : table user;
  packages : table package;
  transactions : table transaction
}.

(** The database file right after the [CREATE TABLE] statements. *)
Definition empty : DB := mkDB (Table [] 0) (Table [] 0) (Table [] 0).

Definition with_users (db : DB) (us : table user) : DB :=
  mkDB us (packages db) (transactions db).

Definition with_packages (db : DB) (ps : table package) : DB :=
  mkDB (users db) ps (transactions db).

Definition with_transactions (db : DB) (ts : table transaction) : DB :=
  mkDB (users db) (packages db) ts.

(** ** Dates *)

(** [datetime.max]: 9999-12-31T23:59:59.999999. *)
Definition datetime_max : datetime := 3652059 * 86400 * 1000000 - 1.

(** The Python type of a column value. *)
Definition sql_type_name (v : sqlval) : string :=
  match v with
  | SNull => "NoneType"
  | SInt _ => "int"
  | SText _ | SFormatted _ | STimestamp _ => "str"
  end.

(** [datetime.timedelta(hours=h)], in microseconds; at most 999999999
    days either way. *)
Definition timedelta_hours (h : sqlval) : result Z :=
  match h with
  | SInt n =>
      let days := n / 24 in
      if (-999999999 <=? days) && (days <=? 999999999)
      then Ok (n * 3600 * 1000000)
      else Raise (OverflowError [Lit "days="; Str (VInt days);
                                 Lit "; must have magnitude <= 999999999"])
  | _ => Raise (Exn "TypeError" [Lit "unsupported type for timedelta hours component: ";
                                 Lit (sql_type_name h)])
  end.

(** [t + delta] on a [datetime] *)
Definition datetime_add (t : datetime) (delta : Z) : result datetime :=
  let r := t + delta in
  if (0 <=? r) && (r <=? datetime_max)
  then Ok r
  else Raise (OverflowError [Lit "date value out of range"]).

(** ** Rows as dictionaries *)

(** [row[key]] *)
Definition row_getitem (r : row) (key : string) : result sqlval :=
  match lookup key r with
  | Some v => Ok v
  | None => Raise (KeyError key)
  end.

(** Columns of the three user SELECTs by mac, username and id. *)
Definition user_dict (u : user) : row :=
  [ ("id", SInt (u_id u));
    ("username", nullable SText (u_username u));
    ("password", nullable SFormatted (u_password u));
    ("phone_number", SText (u_phone_number u));
    ("email", nullable SText (u_email u));
    ("mac_address", nullable SText (u_mac_address u));
    ("created_at", STimestamp (u_created_at u));
    ("last_login", nullable STimestamp (u_last_login u));
    ("is_active", SBool (u_is_active u));
    ("current_package_id", nullable SInt (u_current_package_id u));
    ("package_expires_at", nullable STimestamp (u_package_expires_at u)) ].

(** Columns of the package SELECTs. *)
Definition package_dict (p : package) : row :=
  [ ("id", SInt (p_id p));
    ("name", SText (p_name p));
    ("description", nullable SText (p_description p));
    ("price", SInt (p_price p));
    ("duration_hours", SInt (p_duration_hours p));
    ("data_limit_gb", nullable SInt (p_data_limit_gb p));
    ("speed_limit_mbps", nullable SInt (p_speed_limit_mbps p));
    ("package_type", SText (p_package_type p)) ].

Definition option_eqb (o : option string) (s : string) : bool :=
  match o with
  | Some x => String.eqb x s
  | None => false
  end.

(** ** Queries *)

Definition get_user_by_mac (db : DB) (mac_address : string) : option row :=
  option_map user_dict
    (find (fun u => option_eqb (u_mac_address u) mac_address) (rows (users db))).

Definition get_user_by_username (db : DB) (username : string) : option row :=
  option_map user_dict
    (find (fun u => option_eqb (u_username u) username) (rows (users db))).

Definition get_user_by_id (db : DB) (user_id : Z) : result (option row) :=
  user_id <- bind_int user_id ;;
  Ok (option_map user_dict (find (fun u => u_id u =? user_id) (rows (users db)))).

(** [WHERE id = ? AND is_active = 1] *)
Definition find_package (db : DB) (package_id : Z) : option package :=
  find (fun p => (p_id p =? package_id) && p_is_active p) (rows (packages db)).

Definition get_package_by_id (db : DB) (package_id : Z) : result (option row) :=
  package_id <- bind_int package_id ;;
  Ok (option_map package_dict (find_package db package_id)).

(** ** Default catalogue *)

Definition default_packages
  : list (string * string * Z * Z * option Z * option Z * string) :=
  [ ("24 Hrs Unlimited", "24 hours unlimited internet", 100, 24, None, None, "daily");
    ("12 Hrs Unlimited", "12 hours unlimited internet", 50, 12, None, None, "daily");
    ("6 Hrs Unlimited", "6 hours unlimited internet", 30, 6, None, None, "daily");
    ("1 Hr Unlimited", "1 hour unlimited internet", 20, 1, None, None, "daily");
    ("10 GB", "10 GB data for 7 days", 150, 168, Some 10, None, "weekly");
    ("20 GB", "20 GB data for 7 days", 250, 168, Some 20, None, "weekly");
    ("40 GB", "40 GB data for 7 days", 450, 168, Some 40, None, "weekly");
    ("1 Mbps", "1 Mbps unlimited for 30 days", 300, 720, None, Some 1, "monthly");
    ("2 Mbps", "2 Mbps unlimited for 30 days", 500, 720, None, Some 2, "monthly");
    ("5 Mbps", "5 Mbps unlimited for 30 days", 900, 720, None, Some 5, "monthly");
    ("10 Mbps", "10 Mbps unlimited for 30 days", 1500, 720, None, Some 10, "monthly");
    ("20 Mbps", "20 Mbps unlimited for 30 days", 2500, 720, None, Some 20, "monthly") ].

(** [executemany] of the INSERT: one row per tuple, rowids in order. *)
Fixpoint insert_packages (current_timestamp : datetime)
    (ps : list (string * string * Z * Z * option Z * option Z * string))
    (t : table package) : table package :=
  match ps with
  | [] => t
  | (name, description, price, duration_hours, data_limit_gb, speed_limit_mbps, package_type)
    :: rest =>
      let id := last_rowid t + 1 in
      insert_packages current_timestamp rest
        (Table (rows t ++ [mkPackage id name (Some description) price duration_hours
                             data_limit_gb speed_limit_mbps package_type true
                             current_timestamp])
               id)
  end.

Definition insert_default_packages (current_timestamp : datetime) (db : DB) : DB :=
  if 0 <? Z.of_nat (List.length (rows (packages db)))
  then db
  else with_packages db (insert_packages current_timestamp default_packages (packages db)).

(** The tables exist already ([empty] is the file after they are
    created), so what is left of [init_database] is the catalogue. *)
Definition init_database (current_timestamp : datetime) (db : DB) : DB :=
  insert_default_packages current_timestamp db.

(** ** Users *)

(** [create_mac_user]: the INSERT fails on a MAC address already present
    (UNIQUE); the new row has no package. Returns the store and the
    dictionary handed back. *)
Definition create_mac_user (now current_timestamp : datetime) (db : DB)
    (mac_address phone_number : string) (email : option string) : result (DB * row) :=
  if existsb (fun u => option_eqb (u_mac_address u) mac_address) (rows (users db))
  then Raise (ValueError "MAC address already exists")
  else
    let user_id := last_rowid (users db) + 1 in
    let u := mkUser user_id None None phone_number email (Some mac_address)
                    current_timestamp None true None None None in
    Ok (with_users db (Table (rows (users db) ++ [u])%list user_id),
        [ ("id", SInt user_id);
          ("mac_address", SText mac_address);
          ("phone_number", SText phone_number);
          ("email", nullable SText email);
          ("created_at", STimestamp now) ]).

(** [delete_mac_user] *)
Definition delete_mac_user (db : DB) (mac_address : string) : result DB :=
  let keep := filter (fun u => negb (option_eqb (u_mac_address u) mac_address))
                     (rows (users db)) in
  let rowcount := Z.of_nat (List.length (rows (users db))) - Z.of_nat (List.length keep) in
  if rowcount =? 0
  then Raise (ValueError "MAC address not found")
  else Ok (with_users db (Table keep (last_rowid (users db)))).

(** [create_user]: the password is stored as its SHA-256 hex digest. *)
Definition create_user (now current_timestamp : datetime) (db : DB)
    (username password phone_number : string) (email : option string) : result (DB * row) :=
  let hashed_password := [Sha256Hex [Lit password]] in
  if existsb (fun u => option_eqb (u_username u) username) (rows (users db))
  then Raise (ValueError "Username already exists")
  else
    let user_id := last_rowid (users db) + 1 in
    let u := mkUser user_id (Some username) (Some hashed_password) phone_number email None
                    current_timestamp None true None None None in
    Ok (with_users db (Table (rows (users db) ++ [u])%list user_id),
        [ ("id", SInt user_id);
          ("username", SText username);
          ("phone_number", SText phone_number);
          ("email", nullable SText email);
          ("created_at", STimestamp now) ]).

(** [UPDATE users SET last_login = CURRENT_TIMESTAMP WHERE id = ?] *)
Definition update_last_login (current_timestamp : datetime) (db : DB) (user_id : Z)
  : result DB :=
  user_id <- bind_int user_id ;;
  Ok (with_users db
        (Table (map (fun u =>
                       if u_id u =? user_id
                       then mkUser (u_id u) (u_username u) (u_password u) (u_phone_number u)
                                   (u_email u) (u_mac_address u) (u_created_at u)
                                   (Some current_timestamp) (u_is_active u)
                                   (u_mikrotik_user_id u) (u_current_package_id u)
                                   (u_package_expires_at u)
                       else u)
                    (rows (users db)))
               (last_rowid (users db)))).

(** ** Transactions *)

(** [create_transaction]: one INSERT; [status] takes its column default
    and [completed_at] stays NULL. The two ids are bound first; a NaN
    amount then fails the NOT NULL constraint of its column. The
    dictionary returned carries the arguments as they were passed. *)
Definition create_transaction (now current_timestamp : datetime) (db : DB)
    (user_id package_id : Z) (amount : float) (payment_method phone_number : string)
    (transaction_id : option string) : result (DB * list (string * cell)) :=
  bound_user_id <- bind_int user_id ;;
  bound_package_id <- bind_int package_id ;;
  match numeric_affinity amount with
  | None => Raise (Exn "IntegrityError"
                       [Lit "NOT NULL constraint failed: transactions.amount"])
  | Some stored =>
      let id := last_rowid (transactions db) + 1 in
      let t := mkTransaction id bound_user_id bound_package_id stored payment_method
                             transaction_id "pending" phone_number current_timestamp
                             None in
      Ok (with_transactions db (Table (rows (transactions db) ++ [t])%list id),
          [ ("id", Plain (SInt id));
            ("user_id", Plain (SInt user_id));
            ("package_id", Plain (SInt package_id));
            ("amount", Float amount);
            ("payment_method", Plain (SText payment_method));
            ("phone_number", Plain (SText phone_number));
            ("status", Plain (SText "pending"));
            ("created_at", Plain (STimestamp now)) ])
  end.

(** [UPDATE transactions SET status = ?, completed_at = ? WHERE id = ?] *)
Definition set_status (status : string) (completed_at : option datetime)
    (t : transaction) : transaction :=
  mkTransaction (t_id t) (t_user_id t) (t_package_id t) (t_amount t) (t_payment_method t)
                (t_transaction_id t) status (t_phone_number t) (t_created_at t)
                completed_at.

Definition update_transaction_status (now : datetime) (db : DB)
    (transaction_id : Z) (status : string) : result DB :=
  let completed_at := if String.eqb status "completed" then Some now else None in
  transaction_id <- bind_int transaction_id ;;
  Ok (with_transactions db
        (Table (map (fun t => if t_id t =? transaction_id
                              then set_status status completed_at t
                              else t)
                    (rows (transactions db)))
               (last_rowid (transactions db)))).

(** ** Package assignment *)

(** [UPDATE users SET current_package_id = ?, package_expires_at = ? WHERE id = ?] *)
Definition set_package (package_id : Z) (expires_at : datetime) (u : user) : user :=
  mkUser (u_id u) (u_username u) (u_password u) (u_phone_number u) (u_email u)
         (u_mac_address u) (u_created_at u) (u_last_login u) (u_is_active u)
         (u_mikrotik_user_id u) (Some package_id) (Some expires_at).

Definition assign_package_to_user (now : datetime) (db : DB)
    (user_id package_id : Z) : result DB :=
  package <- get_package_by_id db package_id ;;
  match package with
  | None => Raise (ValueError "Package not found")
  | Some package =>
      hours <- row_getitem package "duration_hours" ;;
      delta <- timedelta_hours hours ;;
      expires_at <- datetime_add now delta ;;
      package_id <- bind_int package_id ;;
      user_id <- bind_int user_id ;;
      Ok (with_users db
            (Table (map (fun u => if u_id u =? user_id
                                  then set_package package_id expires_at u
                                  else u)
                        (rows (users db)))
                   (last_rowid (users db))))
  end.

End Database.

(* ===================================================================== *)
(** * mpesa_stkpush.py: the STK push client                              *)
(* ===================================================================== *)

Module Mpesa.
Import Py.

Record MpesaSTKPush : Type := mkMpesa {
  consumer_key : string;
  consumer_secret : string;
  paybill : string;
  environment : string
}.

Definition base_url (self : MpesaSTKPush) : string :=
  "https://" ++ environment self ++ ".safaricom.co.ke".

(** What [requests] hands back: the status and what [response.json()]
    gives or raises. *)
Record response : Type := mkResponse {
  status_code : Z;
  json : result value
}.

Record stk_push_data : Type := mkStkPush {
  BusinessShortCode : string;
  Password : text;
  Timestamp : text;
  TransactionType : string;
  Amount : value;
  PartyA : value;
  PartyB : string;
  PhoneNumber : value;
  CallBackURL : string;
  AccountReference : text;
  TransactionDesc : text
}.

Inductive call : Type :=
| Get (url : string) (auth : string * string)
| Post (url : string) (headers : list (string * text)) (data : stk_push_data).

(** The gateway as the client sees it: each request raises or answers. *)
Record gateway : Type := mkGateway {
  requests_get : string -> string * string -> result response;
  requests_post : string -> list (string * text) -> stk_push_data -> result response
}.

(** [get_access_token]. The token is also kept in [self.access_token],
    which nothing reads back. *)
Definition get_access_token (gw : gateway) (self : MpesaSTKPush) : io call value :=
  try_except
    (let url := base_url self ++ "/oauth/v1/generate?grant_type=client_credentials" in
     let auth := (consumer_key self, consumer_secret self) in
     response <~ ([Get url auth], requests_get gw url auth) ;;
     if status_code response =? 200
     then pure (data <- json response ;; getitem data "access_token")
     else pure (Raise (Exception [Lit "Failed to get access token: ";
                                  Str (VInt (status_code response))])))
    (fun e => pure (Raise (Exception (Lit "Access token error: " :: exn_str e)))).

Definition generate_password (now : datetime) (self : MpesaSTKPush) : text :=
  let timestamp := [Strftime now] in
  let password_string := ([Lit (paybill self); Lit (consumer_secret self)] ++ timestamp)%list in
  [Sha256Hex password_string].

(** [initiate_stk_push]; [now1] and [now2] are the clock when the request
    timestamp is taken and when the password is generated. *)
Definition initiate_stk_push (gw : gateway) (now1 now2 : datetime) (self : MpesaSTKPush)
    (phone_number amount package_name : value) (account_reference : text)
    (callback_url : string) : io call dict :=
  try_except
    (access_token <~ get_access_token gw self ;;
     let timestamp := [Strftime now1] in
     let password := generate_password now2 self in
     let stk_push_data :=
       {| BusinessShortCode := paybill self;
          Password := password;
          Timestamp := timestamp;
          TransactionType := "CustomerPayBillOnline";
          Amount := amount;
          PartyA := phone_number;
          PartyB := paybill self;
          PhoneNumber := phone_number;
          CallBackURL := callback_url;
          AccountReference := account_reference;
          TransactionDesc := [Lit "FortuNet "; Str package_name] |} in
     let url := base_url self ++ "/mpesa/stkpush/v1/processrequest" in
     let headers := [ ("Authorization", [Lit "Bearer "; Str access_token]);
                      ("Content-Type", [Lit "application/json"]) ] in
     response <~ ([Post url headers stk_push_data],
                  requests_post gw url headers stk_push_data) ;;
     if status_code response =? 200
     then pure (result <- json response ;;
                checkout_request_id <- get result "CheckoutRequestID" VNone ;;
                merchant_request_id <- get result "MerchantRequestID" VNone ;;
                response_code <- get result "ResponseCode" VNone ;;
                response_description <- get result "ResponseDescription" VNone ;;
                customer_message <- get result "CustomerMessage" VNone ;;
                Ok [ ("success", Val (VBool true));
                     ("checkout_request_id", Val checkout_request_id);
                     ("merchant_request_id", Val merchant_request_id);
                     ("response_code", Val response_code);
                     ("response_description", Val response_description);
                     ("customer_message", Val customer_message) ])
     else pure (Raise (Exception [Lit "STK push failed: ";
                                  Str (VInt (status_code response))])))
    (fun e => pure (Ok [ ("success", Val (VBool false)); ("error", Txt (exn_str e)) ])).

Definition MPESA_CONFIG : MpesaSTKPush :=
  {| consumer_key := "your_consumer_key_here";
     consumer_secret := "your_consumer_secret_here";
     paybill := "123456";
     environment := "sandbox" |}.

Definition mpesa : MpesaSTKPush := MPESA_CONFIG.

(** The block under [# Format phone number]: [startswith] exists on
    strings only. *)
Definition format_phone_number (phone_number : value) : result value :=
  match phone_number with
  | VStr s =>
      if String.prefix "0" s then Ok (VStr ("254" ++ drop_first s))
      else if String.prefix "+" s then Ok (VStr (drop_first s))
      else Ok (VStr s)
  | _ => Raise (AttributeError phone_number "startswith")
  end.

(** [process_payment]; [now k] is the clock at its [k]-th reading. *)
Definition process_payment (gw : gateway) (now : nat -> datetime)
    (phone_number amount package_name user_id : value) : io call dict :=
  try_except
    (phone_number <~ pure (format_phone_number phone_number) ;;
     let account_reference :=
       [Lit "FortuNet-"; Str user_id; Lit "-"; Strftime (now 0%nat)] in
     let callback_url := "https://your-domain.com/api/mpesa-callback" in
     result <~ initiate_stk_push gw (now 1%nat) (now 2%nat) mpesa
                 phone_number amount package_name account_reference callback_url ;;
     pure (Ok result))
    (fun e => pure (Ok [ ("success", Val (VBool false)); ("error", Txt (exn_str e)) ])).

End Mpesa.

(* ===================================================================== *)
(** * flask_api_endpoints.py: payment endpoints and activation           *)
(* ===================================================================== *)

Module Endpoints.
Import Py Database.

(** A handler's return value: [jsonify(body), status]. *)
Record reply : Type := mkReply {
  body : dict;
  status : Z
}.

Definition jsonify (d : dict) : reply := mkReply d 200.

(** ** Router *)

Inductive router_call : Type :=
| GetApi
| HotspotUserUpdate (name profile limit_uptime : sqlval).

(** The router as [routeros_api] shows it: connecting and updating a
    hotspot user each return or raise. *)
Record router : Type := mkRouter {
  get_api : result unit;
  hotspot_user_update : sqlval -> sqlval -> sqlval -> result unit
}.

(** The [try] block of [activate_user_package]: the store it leaves when
    no statement raises. The store changes in the last statement only. *)
Definition activate_rows (rt : router) (now : datetime) (db : DB) (user_id package_id : Z)
  : io router_call DB :=
  package <~ pure (get_package_by_id db package_id) ;;
  user <~ pure (get_user_by_id db user_id) ;;
  match package, user with
  | Some package, Some user =>
      _ <~ ([GetApi], get_api rt) ;;
      name <~ pure (row_getitem user "username") ;;
      profile <~ pure (row_getitem package "name") ;;
      limit_uptime <~ pure (row_getitem package "validity") ;;
      _ <~ ([HotspotUserUpdate name profile limit_uptime],
            hotspot_user_update rt name profile limit_uptime) ;;
      pure (assign_package_to_user now db user_id package_id)
  | _, _ => pure (Raise (Exception [Lit "Package or user not found"]))
  end.

Definition activate_user_package (rt : router) (now : datetime) (db : DB)
    (user_id package_id : Z) : DB * io router_call unit :=
  match activate_rows rt now db user_id package_id with
  | (made, Ok db') => (db', (made, Ok tt))
  | (made, Raise e) =>
      (db, (made, Raise (Exception (Lit "Failed to activate package: " :: exn_str e))))
  end.

(** ** [/api/initiate-payment] *)

Definition required_fields : list string :=
  ["phoneNumber"; "packageId"; "amount"; "packageName"].

(** The loop over [required_fields]: the first field not in [data]. *)
Fixpoint first_missing (data : value) (fields : list string) : result (option string) :=
  match fields with
  | [] => Ok None
  | field :: rest =>
      present <- contains data field ;;
      if present then first_missing data rest else Ok (Some field)
  end.

(** [result.get(key)] on a dictionary the program built *)
Definition dict_get (d : dict) (key : string) (default : entry) : entry :=
  match lookup key d with
  | Some e => e
  | None => default
  end.

(** [initiate_payment]. [request_json] is what [request.get_json()] gives
    or raises. The handler has no statement that touches the store. *)
Definition initiate_payment (gw : Mpesa.gateway) (now : nat -> datetime)
    (request_json : result value) (db : DB) : DB * io Mpesa.call reply :=
  (db,
   try_except
     (data <~ pure request_json ;;
      missing <~ pure (first_missing data required_fields) ;;
      match missing with
      | Some field =>
          pure (Ok (mkReply [("error", Txt [Lit "Missing required field: "; Lit field])] 400))
      | None =>
          phone_number <~ pure (getitem data "phoneNumber") ;;
          amount <~ pure (getitem data "amount") ;;
          package_name <~ pure (getitem data "packageName") ;;
          user_id <~ pure (get data "username" (VStr "guest")) ;;
          result <~ Mpesa.process_payment gw now phone_number amount package_name user_id ;;
          success <~ pure (match lookup "success" result with
                           | Some e => Ok e
                           | None => Raise (KeyError "success")
                           end) ;;
          if entry_truthy success
          then pure (Ok (jsonify
                 [ ("success", Val (VBool true));
                   ("checkoutRequestID", dict_get result "checkout_request_id" (Val VNone));
                   ("customerMessage", dict_get result "customer_message" (Val VNone));
                   ("message", Txt [Lit "STK push sent successfully"]) ]))
          else pure (Ok (mkReply
                 [("error", dict_get result "error" (Txt [Lit "Payment initiation failed"]))]
                 400))
      end)
     (fun e => pure (Ok (mkReply [("error", Txt (exn_str e))] 500)))).

(** ** [/api/mpesa-callback] *)

(** Both branches on the result code are [pass]: the handler reads the
    two fields and acknowledges. *)
Definition mpesa_callback (rt : router) (now : datetime) (request_json : result value)
    (db : DB) : DB * io router_call reply :=
  (db,
   try_except
     (data <~ pure request_json ;;
      result_code <~ pure (get data "ResultCode" VNone) ;;
      checkout_request_id <~ pure (get data "CheckoutRequestID" VNone) ;;
      _ <~ (if eq_zero result_code
            then pure (Ok tt)
            else pure (Ok tt)) ;;
      pure (Ok (jsonify [("status", Txt [Lit "success"])])))
     (fun e => pure (Ok (mkReply [("error", Txt (exn_str e))] 500)))).

End Endpoints.

(* ===================================================================== *)
(** * The store under a sequence of operations                           *)
(* ===================================================================== *)

Module System.
Import Py Database Endpoints.

(** The two clocks an operation may read: Python's [datetime.now()] and
    SQLite's [CURRENT_TIMESTAMP]. *)
Record moment : Type := mkMoment {
  now : datetime;
  current_timestamp : datetime
}.

(** Every entry point of the workflow that can reach the store. *)
Inductive operation : Type :=
| InitDatabase
| CreateMacUser (mac_address phone_number : string) (email : option string)
| DeleteMacUser (mac_address : string)
| CreateUser (username password phone_number : string) (email : option string)
| UpdateLastLogin (user_id : Z)
| CreateTransaction (user_id package_id : Z) (amount : float)
                    (payment_method phone_number : string) (transaction_id : option string)
| UpdateTransactionStatus (transaction_id : Z) (status : string)
| AssignPackageToUser (user_id package_id : Z)
| ActivateUserPackage (rt : router) (user_id package_id : Z)
| InitiatePayment (gw : Mpesa.gateway) (clock : nat -> datetime) (request_json : result value)
| MpesaCallback (rt : router) (request_json : result value).

(** The store after an operation; a method that raises leaves it as it
    found it (each raises before its first write is committed). *)
Definition perform (m : moment) (op : operation) (db : DB) : DB :=
  match op with
  | InitDatabase => init_database (current_timestamp m) db
  | CreateMacUser mac_address phone_number email =>
      match create_mac_user (now m) (current_timestamp m) db mac_address phone_number email with
      | Ok (db', _) => db'
      | Raise _ => db
      end
  | DeleteMacUser mac_address =>
      match delete_mac_user db mac_address with
      | Ok db' => db'
      | Raise _ => db
      end
  | CreateUser username password phone_number email =>
      match create_user (now m) (current_timestamp m) db username password phone_number email with
      | Ok (db', _) => db'
      | Raise _ => db
      end
  | UpdateLastLogin user_id =>
      match update_last_login (current_timestamp m) db user_id with
      | Ok db' => db'
      | Raise _ => db
      end
  | CreateTransaction user_id package_id amount payment_method phone_number transaction_id =>
      match create_transaction (now m) (current_timestamp m) db user_id package_id amount
                               payment_method phone_number transaction_id with
      | Ok (db', _) => db'
      | Raise _ => db
      end
  | UpdateTransactionStatus transaction_id status =>
      match update_transaction_status (now m) db transaction_id status with
      | Ok db' => db'
      | Raise _ => db
      end
  | AssignPackageToUser user_id package_id =>
      match assign_package_to_user (now m) db user_id package_id with
      | Ok db' => db'
      | Raise _ => db
      end
  | ActivateUserPackage rt user_id package_id =>
      fst (activate_user_package rt (now m) db user_id package_id)
  | InitiatePayment gw clock request_json =>
      fst (initiate_payment gw clock request_json db)
  | MpesaCallback rt request_json =>
      fst (mpesa_callback rt (now m) request_json db)
  end.

Fixpoint run (ops : list (moment * operation)) (db : DB) : DB :=
  match ops with
  | [] => db
  | (m, op) :: rest => run rest (perform m op db)
  end.

(** What a router call returned when it was made. *)
Definition outcome_of (rt : router) (c : router_call) : result unit :=
  match c with
  | GetApi => get_api rt
  | HotspotUserUpdate name profile limit_uptime =>
      hotspot_user_update rt name profile limit_uptime
  end.

End System.

(* ===================================================================== *)
(** * Fixtures                                                           *)
(* ===================================================================== *)

Module Fixtures.
Import Py Database Endpoints.

(** A gateway that answers every request with 200: a token, then an
    accepted push. *)
Definition accepting_gateway : Mpesa.gateway :=
  Mpesa.mkGateway
    (fun _ _ => Ok (Mpesa.mkResponse 200 (Ok (VDict [("access_token", VStr "tok")]))))
    (fun _ _ _ => Ok (Mpesa.mkResponse 200
       (Ok (VDict [ ("MerchantRequestID", VStr "29115-34620561-1");
                    ("CheckoutRequestID", VStr "ws_CO_191220191020363925");
                    ("ResponseCode", VStr "0");
                    ("ResponseDescription", VStr "Success. Request accepted for processing");
                    ("CustomerMessage", VStr "Success. Request accepted for processing") ])))).

Definition noon : datetime := 63871329600000000.

Definition clock : nat -> datetime := fun k => noon + Z.of_nat k.

(** A router that cannot be reached, and one that accepts everything. *)
Definition unreachable_router : router :=
  mkRouter (Raise (Exn "RouterOsApiConnectionError" [Lit "timed out"])) (fun _ _ _ => Ok tt).

Definition willing_router : router := mkRouter (Ok tt) (fun _ _ _ => Ok tt).

(** The default catalogue and one registered device. *)
Definition catalogue : DB := init_database noon empty.

Definition one_user : DB :=
  System.perform (System.mkMoment noon noon)
    (System.CreateMacUser "AA:BB:CC:DD:EE:FF" "0712345678" None) catalogue.

(** ... which has started a payment for package 9 (2 Mbps, 500). *)
Definition one_pending : DB :=
  System.perform (System.mkMoment noon noon)
    (System.CreateTransaction 1 9 500%float "mpesa" "254712345678" (Some "ws_CO_191220191020363925"))
    one_user.

(** ... and whose payment was then marked completed. *)
Definition one_completed : DB :=
  System.perform (System.mkMoment noon noon)
    (System.UpdateTransactionStatus 1 "completed") one_pending.

End Fixtures.

(* ===================================================================== *)
(** * database.py: listings and package status                           *)
(* ===================================================================== *)

Module Listings.
Import Py Database.

(** [ORDER BY]: insertion into a list already in order; among rows that
    compare equal the scan order of the table is kept. *)
Fixpoint insert_in_order {A : Type} (leb : A -> A -> bool) (x : A) (l : list A) : list A :=
  match l with
  | [] => [x]
  | y :: rest => if leb x y then x :: l else y :: insert_in_order leb x rest
  end.

Definition order_by {A : Type} (leb : A -> A -> bool) (l : list A) : list A :=
  fold_right (insert_in_order leb) [] l.

(** [ORDER BY price ASC] *)
Definition price_asc (p q : package) : bool := p_price p <=? p_price q.

(** [ORDER BY package_type, price ASC]: the type as text, byte by byte. *)
Definition type_then_price_asc (p q : package) : bool :=
  match String.compare (p_package_type p) (p_package_type q) with
  | Lt => true
  | Eq => p_price p <=? p_price q
  | Gt => false
  end.

(** [WHERE package_type = ? AND is_active = 1 ORDER BY price ASC] *)
Definition select_packages_by_type (db : DB) (package_type : string) : list package :=
  order_by price_asc
    (filter (fun p => String.eqb (p_package_type p) package_type && p_is_active p)
            (rows (packages db))).

Definition get_packages_by_type (db : DB) (package_type : string) : list row :=
  map package_dict (select_packages_by_type db package_type).

(** [WHERE is_active = 1 ORDER BY package_type, price ASC] *)
Definition select_all_packages (db : DB) : list package :=
  order_by type_then_price_asc (filter p_is_active (rows (packages db))).

Definition get_all_packages (db : DB) : list row :=
  map package_dict (select_all_packages db).

(** Columns of the SELECT of [get_all_mac_users]: no password. *)
Definition mac_user_dict (u : user) : row :=
  [ ("id", SInt (u_id u));
    ("username", nullable SText (u_username u));
    ("phone_number", SText (u_phone_number u));
    ("email", nullable SText (u_email u));
    ("mac_address", nullable SText (u_mac_address u));
    ("created_at", STimestamp (u_created_at u));
    ("last_login", nullable STimestamp (u_last_login u));
    ("is_active", SBool (u_is_active u));
    ("current_package_id", nullable SInt (u_current_package_id u));
    ("package_expires_at", nullable STimestamp (u_package_expires_at u)) ].

(** [ORDER BY created_at DESC] *)
Definition newest_user_first (u v : user) : bool := u_created_at v <=? u_created_at u.

(** [WHERE mac_address IS NOT NULL ORDER BY created_at DESC] *)
Definition select_all_mac_users (db : DB) : list user :=
  order_by newest_user_first
    (filter (fun u => match u_mac_address u with Some _ => true | None => false end)
            (rows (users db))).

Definition get_all_mac_users (db : DB) : list row :=
  map mac_user_dict (select_all_mac_users db).

(** [get_user_transactions]: [transactions t JOIN packages p ON
    t.package_id = p.id WHERE t.user_id = ?], newest first. The join
    looks at every package, active or not. *)
Definition newest_transaction_first (a b : transaction * package) : bool :=
  t_created_at (fst b) <=? t_created_at (fst a).

Definition select_user_transactions (db : DB) (user_id : Z) : list (transaction * package) :=
  order_by newest_transaction_first
    (flat_map (fun t =>
                 if t_user_id t =? user_id
                 then map (fun p => (t, p))
                          (filter (fun p => t_package_id t =? p_id p) (rows (packages db)))
                 else [])
              (rows (transactions db))).

Definition transaction_dict (tp : transaction * package) : list (string * cell) :=
  let (t, p) := tp in
  [ ("id", Plain (SInt (t_id t)));
    ("amount", numeric_cell (t_amount t));
    ("payment_method", Plain (SText (t_payment_method t)));
    ("status", Plain (SText (t_status t)));
    ("created_at", Plain (STimestamp (t_created_at t)));
    ("completed_at", Plain (nullable STimestamp (t_completed_at t)));
    ("package_name", Plain (SText (p_name p)));
    ("package_description", Plain (nullable SText (p_description p))) ].

Definition get_user_transactions (db : DB) (user_id : Z)
  : result (list (list (string * cell))) :=
  user_id <- bind_int user_id ;;
  Ok (map transaction_dict (select_user_transactions db user_id)).

(** The values of a nullable column that are not NULL. *)
Definition non_null {A : Type} (l : list (option A)) : list A :=
  flat_map (fun o => match o with Some a => [a] | None => [] end) l.

(** What [AUTOINCREMENT] keeps of a table: rowids distinct and positive,
    none above the counter. *)
Definition rowids_ok {R : Type} (rowid : R -> Z) (t : table R) : Prop :=
  NoDup (map rowid (rows t)) /\
  Forall (fun r => 0 < rowid r <= last_rowid t) (rows t) /\
  0 <= last_rowid t.

(** An item of the dictionary [check_user_package_status] returns: the
    flag it computes, or a column of the row. *)
Inductive status_item : Type :=
| Flag (b : bool)
| Column (v : sqlval).

(** [check_user_package_status]: [users u LEFT JOIN packages p ON
    u.current_package_id = p.id WHERE u.id = ?], first row. *)
Definition check_user_package_status (now : datetime) (db : DB) (user_id : Z)
  : result (list (string * status_item)) :=
  user_id <- bind_int user_id ;;
  match find (fun u => u_id u =? user_id) (rows (users db)) with
  | None => Ok [("has_active_package", Flag false)]
  | Some u =>
      let p := match u_current_package_id u with
               | Some id => find (fun p => p_id p =? id) (rows (packages db))
               | None => None
               end in
      let has_active_package :=
        match u_current_package_id u with
        | None => false
        | Some _ =>
            match u_package_expires_at u with
            | None => false
            | Some expires => now <? expires
            end
        end in
      Ok [ ("has_active_package", Flag has_active_package);
           ("package_id", Column (nullable SInt (u_current_package_id u)));
           ("package_name", Column (nullable SText (option_map p_name p)));
           ("package_description",
            Column (match p with
                    | Some p => nullable SText (p_description p)
                    | None => SNull
                    end));
           ("expires_at", Column (nullable STimestamp (u_package_expires_at u))) ]
  end.

End Listings.

(* ===================================================================== *)
(** * flask_api_endpoints.py: the session endpoints                      *)
(* ===================================================================== *)

Module Hotspot.
Import Py Endpoints.

(** An entry of [/ip/hotspot/active] as [routeros_api] returns it. *)
Definition session := list (string * string).

Inductive call : Type :=
| Connect
| ActiveGet
| AddressListAdd (address : option string) (list_name : string) (comment : text)
| ActiveRemove (id : string).

(** The router behind these endpoints: each request returns or raises. *)
Record api : Type := mkApi {
  connect : result unit;
  active_get : result (list session);
  address_list_add : option string -> string -> text -> result unit;
  active_remove : string -> result unit
}.

(** [session.get(key, default)] as a JSON value *)
Definition field (s : session) (key : string) (default : value) : value :=
  match lookup key s with
  | Some v => VStr v
  | None => default
  end.

(** [session.get(key) == other] *)
Definition field_is (s : session) (key : string) (other : option string) : bool :=
  match lookup key s, other with
  | Some a, Some b => String.eqb a b
  | None, None => true
  | _, _ => false
  end.

(** [get_current_session]; [client_ip] is [request.remote_addr]. *)
Definition get_current_session (rt : api) (client_ip : option string) : io call reply :=
  try_except
    (_ <~ ([Connect], connect rt) ;;
     active_sessions <~ ([ActiveGet], active_get rt) ;;
     match find (fun session => field_is session "address" client_ip) active_sessions with
     | Some session =>
         pure (Ok (jsonify
           [ ("username", Val (field session "user" (VStr "Guest")));
             ("address", Val (field session "address" VNone));
             ("mac-address", Val (field session "mac-address" VNone));
             ("bytes-in", Val (field session "bytes-in" (VInt 0)));
             ("bytes-out", Val (field session "bytes-out" (VInt 0)));
             ("uptime", Val (field session "uptime" VNone));
             ("idle-time", Val (field session "idle-time" VNone));
             ("session-time-left", Val (field session "session-time-left" VNone));
             ("profile", Val (field session "profile" VNone));
             ("rate-limit", Val (field session "rate-limit" VNone));
             ("limit-uptime", Val (field session "limit-uptime" VNone)) ]))
     | None => pure (Ok (mkReply [("error", Txt [Lit "No active session found"])] 404))
     end)
    (fun e => pure (Ok (mkReply [("error", Txt (exn_str e))] 500))).

(** [disconnect_user] *)
Definition disconnect_user (rt : api) (user_id : string) : io call reply :=
  try_except
    (_ <~ ([Connect], connect rt) ;;
     _ <~ ([ActiveRemove user_id], active_remove rt user_id) ;;
     pure (Ok (jsonify [("message", Txt [Lit "User disconnected successfully"])])))
    (fun e => pure (Ok (mkReply [("error", Txt (exn_str e))] 500))).

(** [block_user]: the first active session with that [.id], if any, has
    its address put on the [blocked_users] list and is then removed. *)
Definition block_user (rt : api) (user_id : string) : io call reply :=
  try_except
    (_ <~ ([Connect], connect rt) ;;
     active_users <~ ([ActiveGet], active_get rt) ;;
     let user := find (fun u => field_is u ".id" (Some user_id)) active_users in
     _ <~ match user with
          | Some user =>
              let address := lookup "address" user in
              let comment := [Lit "Blocked user: "; Str (field user "user" VNone)] in
              _ <~ ([AddressListAdd address "blocked_users" comment],
                    address_list_add rt address "blocked_users" comment) ;;
              ([ActiveRemove user_id], active_remove rt user_id)
          | None => pure (Ok tt)
          end ;;
     pure (Ok (jsonify [("message", Txt [Lit "User blocked successfully"])])))
    (fun e => pure (Ok (mkReply [("error", Txt (exn_str e))] 500))).

End Hotspot.

(** Two clients on the hotspot, and a router that does what it is asked. *)
Module Samples.
Import Py Hotspot.

Definition two_sessions : list session :=
  [ [ (".id", "*1A"); ("user", "amina"); ("address", "10.5.50.2");
      ("mac-address", "AA:BB:CC:DD:EE:FF"); ("uptime", "1h2m") ];
    [ (".id", "*1B"); ("address", "10.5.50.3"); ("bytes-in", "1024") ] ].

Definition busy_router : api :=
  mkApi (Ok tt) (Ok two_sessions) (fun _ _ _ => Ok tt) (fun _ => Ok tt).

End Samples.

(** Case analysis on the next test the program makes. *)
Ltac next_case :=
  match goal with
  | |- context [match ?x with Py.Ok _ => _ | Py.Raise _ => _ end] => destruct x eqn:?
  | |- context [match ?x with Some _ => _ | None => _ end] => destruct x eqn:?
  | |- context [if ?b then _ else _] => destruct b eqn:?
  end.

(* ===================================================================== *)
(** * Properties of the store                                            *)
(* ===================================================================== *)

Section StoreFacts.
Import Py Database.

Local Abbreviation paired u :=
  (u_current_package_id u <> None <-> u_package_expires_at u <> None).

Example catalogue_has_twelve_packages :
  List.length (rows (packages Fixtures.catalogue)) = 12%nat.
Proof. reflexivity. Qed.

Example package_nine_is_two_mbps :
  get_package_by_id Fixtures.catalogue 9
  = Ok (Some [ ("id", SInt 9); ("name", SText "2 Mbps");
               ("description", SText "2 Mbps unlimited for 30 days");
               ("price", SInt 500); ("duration_hours", SInt 720);
               ("data_limit_gb", SNull); ("speed_limit_mbps", SInt 2);
               ("package_type", SText "monthly") ]).
Proof. reflexivity. Qed.

Example id_outside_64_bits_is_not_bound :
  get_package_by_id Fixtures.catalogue (2 ^ 63)
  = Raise int_too_large /\
  get_user_by_id Fixtures.one_user (- 2 ^ 63 - 1)
  = Raise int_too_large /\
  get_user_by_id Fixtures.one_user (- 2 ^ 63) = Ok None.
Proof. repeat split; reflexivity. Qed.

Example amounts_as_stored :
  numeric_affinity 500%float = Some (Integer 500) /\
  numeric_affinity 500.5%float = Some (Real 500.5%float) /\
  numeric_affinity (-0)%float = Some (Integer 0) /\
  numeric_affinity (-2.5e2)%float = Some (Integer (-250)) /\
  numeric_affinity 0x1p62%float = Some (Integer (2 ^ 62)) /\
  numeric_affinity 0x1p63%float = Some (Real 0x1p63%float) /\
  numeric_affinity (-0x1p63)%float = Some (Real (-0x1p63)%float) /\
  numeric_affinity infinity = Some (Real infinity) /\
  numeric_affinity nan = None.
Proof. repeat split; reflexivity. Qed.

Example new_device_has_no_package :
  map (fun u => (u_id u, u_mac_address u, u_current_package_id u, u_package_expires_at u))
      (rows (users Fixtures.one_user))
  = [(1, Some "AA:BB:CC:DD:EE:FF", None, None)].
Proof. reflexivity. Qed.

Example second_registration_of_a_device_is_refused :
  create_mac_user Fixtures.noon Fixtures.noon Fixtures.one_user
    "AA:BB:CC:DD:EE:FF" "0700000000" None
  = Raise (ValueError "MAC address already exists").
Proof. reflexivity. Qed.

Example entitlement_after_assignment :
  (db' <- assign_package_to_user Fixtures.noon Fixtures.one_user 1 9 ;;
   early <- Listings.check_user_package_status (Fixtures.noon + 1) db' 1 ;;
   late <- Listings.check_user_package_status
             (Fixtures.noon + 720 * 3600 * 1000000) db' 1 ;;
   Ok (lookup "has_active_package" early, lookup "has_active_package" late))
  = Ok (Some (Listings.Flag true), Some (Listings.Flag false)).
Proof. reflexivity. Qed.

Lemma find_package_sound db package_id p :
  find_package db package_id = Some p ->
  In p (rows (packages db)) /\ p_id p = package_id /\ p_is_active p = true.
Proof.
  unfold find_package. intros H. apply find_some in H.
  destruct H as [Hin H]. apply andb_true_iff in H. destruct H as [Hid Hact].
  apply Z.eqb_eq in Hid. auto.
Qed.

Lemma bind_int_fits z : fits_int64 z = true -> bind_int z = Ok z.
Proof. intros H. unfold bind_int. rewrite H. reflexivity. Qed.

Lemma bind_int_overflow z :
  fits_int64 z = false -> bind_int z = Raise int_too_large.
Proof. intros H. unfold bind_int. rewrite H. reflexivity. Qed.

Lemma bind_int_inv z z' : bind_int z = Ok z' -> z' = z /\ fits_int64 z = true.
Proof.
  unfold bind_int. destruct (fits_int64 z); [|discriminate].
  intros H. injection H as <-. auto.
Qed.

(** What [assign_package_to_user] computes once the package is found. *)
Lemma assign_package_to_user_found now db user_id package_id p :
  fits_int64 package_id = true ->
  find_package db package_id = Some p ->
  assign_package_to_user now db user_id package_id =
  (delta <- timedelta_hours (SInt (p_duration_hours p)) ;;
   expires_at <- datetime_add now delta ;;
   user_id <- bind_int user_id ;;
   Ok (with_users db
         (Table (map (fun u => if u_id u =? user_id
                               then set_package package_id expires_at u
                               else u)
                     (rows (users db)))
                (last_rowid (users db))))).
Proof.
  intros Hfits H. unfold assign_package_to_user, get_package_by_id.
  rewrite (bind_int_fits _ Hfits). cbn [bind]. rewrite H. reflexivity.
Qed.

Lemma assign_package_to_user_fits now db user_id package_id db' :
  assign_package_to_user now db user_id package_id = Ok db' ->
  fits_int64 user_id = true /\ fits_int64 package_id = true.
Proof.
  unfold assign_package_to_user, get_package_by_id. intros H.
  destruct (fits_int64 package_id) eqn:Hp;
    [|rewrite (bind_int_overflow _ Hp) in H; discriminate].
  split; [|reflexivity].
  rewrite (bind_int_fits _ Hp) in H. cbn [bind] in H.
  destruct (find_package db package_id) as [p|]; [|discriminate].
  cbn [option_map] in H.
  destruct (row_getitem _ _) as [hours|] in H; [|discriminate]. cbn [bind] in H.
  destruct (timedelta_hours hours) as [delta|] in H; [|discriminate]. cbn [bind] in H.
  destruct (datetime_add now delta) as [expires_at|] in H; [|discriminate]. cbn [bind] in H.
  destruct (fits_int64 user_id) eqn:Hu; [reflexivity|].
  rewrite (bind_int_overflow _ Hu) in H. discriminate.
Qed.

Lemma assign_package_to_user_inv now db user_id package_id db' :
  assign_package_to_user now db user_id package_id = Ok db' ->
  exists p expires_at,
    find_package db package_id = Some p /\
    expires_at = now + p_duration_hours p * 3600 * 1000000 /\
    db' = with_users db
            (Table (map (fun u => if u_id u =? user_id
                                  then set_package package_id expires_at u
                                  else u)
                        (rows (users db)))
                   (last_rowid (users db))).
Proof.
  intros H. destruct (assign_package_to_user_fits _ _ _ _ _ H) as [Hu Hpk].
  destruct (find_package db package_id) as [p|] eqn:Hp.
  - rewrite (assign_package_to_user_found _ _ _ _ _ Hpk Hp) in H.
    rewrite (bind_int_fits _ Hu) in H.
    unfold timedelta_hours, datetime_add, bind in H.
    destruct (_ && _) in H; [|discriminate].
    destruct (_ && _) in H; [|discriminate].
    injection H as <-. exists p. eexists. repeat split; reflexivity.
  - unfold assign_package_to_user, get_package_by_id in H.
    rewrite (bind_int_fits _ Hpk) in H. cbn [bind] in H. rewrite Hp in H. discriminate.
Qed.

Lemma map_ids_assign package_id expires_at user_id (us : list user) :
  map u_id (map (fun u => if u_id u =? user_id
                          then set_package package_id expires_at u else u) us)
  = map u_id us.
Proof.
  induction us as [|u us IH]; simpl; [reflexivity|].
  rewrite IH. destruct (u_id u =? user_id); reflexivity.
Qed.

(** C6. A package assignment, with the package [p] found active in the
    catalogue and the expiry a representable date, succeeds when both ids
    are 64-bit integers, and then gives every account carrying the user
    id [p]'s id as current package and the clock at assignment plus [p]'s
    duration in hours as expiry; the accounts in the store stay the same
    ones. With an id that is not a 64-bit integer the assignment raises
    [OverflowError]. *)
Theorem assign_package_sets_expiry now db user_id package_id p :
  find_package db package_id = Some p ->
  0 <= now <= datetime_max ->
  0 <= now + p_duration_hours p * 3600 * 1000000 <= datetime_max ->
  if fits_int64 package_id && fits_int64 user_id
  then
    exists db',
      assign_package_to_user now db user_id package_id = Ok db' /\
      map u_id (rows (users db')) = map u_id (rows (users db)) /\
      forall u', In u' (rows (users db')) -> u_id u' = user_id ->
        u_current_package_id u' = Some (p_id p) /\
        u_package_expires_at u' = Some (now + p_duration_hours p * 3600 * 1000000)
  else
    assign_package_to_user now db user_id package_id
    = Raise int_too_large.
Proof.
  intros Hp Hnow Hexp.
  destruct (find_package_sound _ _ _ Hp) as (_ & Hid & _).
  destruct (fits_int64 package_id) eqn:Hpk; cbn [andb];
    [|unfold assign_package_to_user, get_package_by_id;
      rewrite (bind_int_overflow _ Hpk); reflexivity].
  rewrite (assign_package_to_user_found _ _ _ _ _ Hpk Hp).
  unfold timedelta_hours, datetime_add, bind.
  assert (Hd : (-999999999 <=? p_duration_hours p / 24) &&
               (p_duration_hours p / 24 <=? 999999999) = true).
  { unfold datetime_max in *. apply andb_true_iff. split; apply Z.leb_le.
    - apply Z.div_le_lower_bound; lia.
    - apply Z.lt_succ_r. apply Z.div_lt_upper_bound; lia. }
  rewrite Hd.
  assert (Hr : (0 <=? now + p_duration_hours p * 3600 * 1000000) &&
               (now + p_duration_hours p * 3600 * 1000000 <=? datetime_max) = true).
  { apply andb_true_iff. split; apply Z.leb_le; lia. }
  rewrite Hr.
  destruct (fits_int64 user_id) eqn:Hus;
    [rewrite (bind_int_fits _ Hus) | rewrite (bind_int_overflow _ Hus); reflexivity].
  eexists. split; [reflexivity|]. simpl. split.
  - apply map_ids_assign.
  - intros u' Hin Hu. apply in_map_iff in Hin. destruct Hin as (u & Heq & _).
    destruct (u_id u =? user_id) eqn:E.
    + subst u'. simpl. rewrite Hid. auto.
    + subst u'. apply Z.eqb_neq in E. contradiction.
Qed.

(** The device of the fixtures takes package 9 (720 hours) at noon. *)
Lemma assign_package_sets_expiry_witness :
  exists db',
    assign_package_to_user Fixtures.noon Fixtures.one_user 1 9 = Ok db' /\
    map u_id (rows (users db')) = map u_id (rows (users Fixtures.one_user)) /\
    forall u', In u' (rows (users db')) -> u_id u' = 1 ->
      u_current_package_id u' = Some 9 /\
      u_package_expires_at u' = Some (Fixtures.noon + 720 * 3600 * 1000000).
Proof.
  apply (assign_package_sets_expiry Fixtures.noon Fixtures.one_user 1 9
           (mkPackage 9 "2 Mbps" (Some "2 Mbps unlimited for 30 days") 500 720
                      None (Some 2) "monthly" true Fixtures.noon)).
  - reflexivity.
  - unfold Fixtures.noon, datetime_max. lia.
  - unfold Fixtures.noon, datetime_max. simpl. lia.
Defined.

(** ** The package pair of an account *)

Lemma Forall_map_same {A : Type} (P : A -> Prop) (f : A -> A) (l : list A) :
  (forall a, P a -> P (f a)) -> Forall P l -> Forall P (map f l).
Proof.
  intros Hf H. induction H; simpl; constructor; auto.
Qed.

Lemma Forall_filter_keep {A : Type} (P : A -> Prop) (f : A -> bool) (l : list A) :
  Forall P l -> Forall P (filter f l).
Proof.
  intros H. induction H; simpl; [constructor|].
  destruct (f x); [constructor|]; assumption.
Qed.

Lemma paired_assign now db user_id package_id db' :
  assign_package_to_user now db user_id package_id = Ok db' ->
  Forall (fun u => paired u) (rows (users db)) ->
  Forall (fun u => paired u) (rows (users db')).
Proof.
  intros H Hinv. apply assign_package_to_user_inv in H.
  destruct H as (p & e & _ & _ & ->). simpl.
  apply Forall_map_same; [|assumption].
  intros u Hu. destruct (u_id u =? user_id); [|assumption].
  simpl. split; intros _; discriminate.
Qed.

(** The store [activate_user_package] leaves behind is the one it was
    given, or the one [assign_package_to_user] returned after the router
    accepted the connection and the update. *)
Lemma activate_rows_store rt now db user_id package_id :
  let '(db', (made, _)) :=
    Endpoints.activate_user_package rt now db user_id package_id in
  db' = db \/
  (assign_package_to_user now db user_id package_id = Ok db' /\
   Forall (fun c => System.outcome_of rt c = Ok tt) made /\
   exists name profile limit_uptime,
     In (Endpoints.HotspotUserUpdate name profile limit_uptime) made).
Proof.
  unfold Endpoints.activate_user_package, Endpoints.activate_rows.
  unfold io_bind, pure.
  destruct (get_package_by_id db package_id) as [package|e]; [|auto].
  destruct (get_user_by_id db user_id) as [user|e]; [|auto].
  destruct package as [package|]; [|simpl; auto].
  destruct user as [user|]; [|simpl; auto].
  destruct (Endpoints.get_api rt) as [[]|e] eqn:Hapi; [|auto].
  destruct (row_getitem user "username") as [name|e]; [|auto].
  destruct (row_getitem package "name") as [profile|e]; [|auto].
  destruct (row_getitem package "validity") as [limit_uptime|e]; [|auto].
  destruct (Endpoints.hotspot_user_update rt name profile limit_uptime) as [[]|e] eqn:Hup;
    [|auto].
  destruct (assign_package_to_user now db user_id package_id) as [db'|e]; [|auto].
  right. split; [reflexivity|]. split.
  - repeat constructor; assumption.
  - exists name, profile, limit_uptime. simpl. auto.
Qed.

Lemma paired_perform m op db :
  Forall (fun u => paired u) (rows (users db)) ->
  Forall (fun u => paired u) (rows (users (System.perform m op db))).
Proof.
  intros Hinv. destruct op; simpl; try assumption.
  - unfold init_database, insert_default_packages.
    destruct (0 <? _); assumption.
  - unfold create_mac_user. destruct (existsb _ _); [assumption|]. simpl.
    apply Forall_app. split; [assumption|]. repeat constructor; simpl; intros H; now elim H.
  - unfold delete_mac_user. destruct (_ =? 0); [assumption|]. simpl.
    apply Forall_filter_keep. assumption.
  - unfold create_user. destruct (existsb _ _); [assumption|]. simpl.
    apply Forall_app. split; [assumption|]. repeat constructor; simpl; intros H; now elim H.
  - unfold update_last_login, bind_int.
    destruct (fits_int64 user_id); [|assumption]. simpl.
    apply Forall_map_same; [|assumption].
    intros u Hu. destruct (u_id u =? user_id); assumption.
  - unfold create_transaction, bind_int.
    destruct (fits_int64 user_id); [|assumption].
    destruct (fits_int64 package_id); [|assumption]. cbn [bind].
    destruct (numeric_affinity amount); assumption.
  - unfold update_transaction_status, bind_int.
    destruct (fits_int64 transaction_id); assumption.
  - destruct (assign_package_to_user _ _ _ _) as [db'|e] eqn:H; [|assumption].
    eapply paired_assign; eassumption.
  - pose proof (activate_rows_store rt (System.now m) db user_id package_id) as H.
    destruct (Endpoints.activate_user_package _ _ _ _ _) as [db' [made r]]. simpl.
    destruct H as [->|(H & _)]; [assumption|].
    eapply paired_assign; eassumption.
Qed.

(** C9. In every store reached from the freshly created database by any
    sequence of operations, each user row has [current_package_id]
    non-null exactly when [package_expires_at] is non-null. *)
Theorem package_pair_invariant (ops : list (System.moment * System.operation)) :
  Forall (fun u => u_current_package_id u <> None <-> u_package_expires_at u <> None)
         (rows (users (System.run ops empty))).
Proof.
  assert (H : forall db, Forall (fun u => paired u) (rows (users db)) ->
                         Forall (fun u => paired u) (rows (users (System.run ops db)))).
  { induction ops as [|[m op] ops IH]; intros db Hdb; simpl; [assumption|].
    apply IH. apply paired_perform. assumption. }
  apply H. constructor.
Qed.

(** ** Transaction status *)

(** C4, as claimed, fails: a status update on a completed transaction
    makes it failed. *)
Lemma completed_transaction_becomes_failed :
  map t_status (rows (transactions Fixtures.one_completed)) = ["completed"] /\
  exists db',
    update_transaction_status Fixtures.noon Fixtures.one_completed 1 "failed" = Ok db' /\
    map t_status (rows (transactions db')) = ["failed"].
Proof. split; [reflexivity|]. eexists. split; reflexivity. Qed.

Lemma in_map_update {A : Type} (f : A -> A) (a : A) (l : list A) :
  In a l -> In (f a) (map f l).
Proof. apply in_map. Qed.

(** C4, amended. A transaction that is completed or failed is left as it
    is by every operation other than a status update, callbacks
    included; [update_transaction_status] on its id overwrites the
    status with the one supplied, whatever both are, and sets
    [completed_at] to the clock for ['completed'] and to NULL
    otherwise. (An id that is not a 64-bit integer cannot be bound: that
    update raises and changes nothing.) *)
Theorem terminal_status_changes_by_update_only m op db t :
  In t (rows (transactions db)) ->
  t_status t = "completed" \/ t_status t = "failed" ->
  In (match op with
      | System.UpdateTransactionStatus transaction_id status =>
          if (t_id t =? transaction_id) && fits_int64 transaction_id
          then set_status status
                 (if String.eqb status "completed" then Some (System.now m) else None) t
          else t
      | _ => t
      end)
     (rows (transactions (System.perform m op db))).
Proof.
  intros Hin _. destruct op; simpl; try assumption.
  - unfold init_database, insert_default_packages. destruct (0 <? _); assumption.
  - unfold create_mac_user. destruct (existsb _ _); assumption.
  - unfold delete_mac_user. destruct (_ =? 0); assumption.
  - unfold create_user. destruct (existsb _ _); assumption.
  - unfold update_last_login, bind_int. destruct (fits_int64 user_id); assumption.
  - unfold create_transaction, bind_int.
    destruct (fits_int64 user_id); [|assumption].
    destruct (fits_int64 package_id); [|assumption]. cbn [bind].
    destruct (numeric_affinity amount); [|assumption]. simpl.
    apply in_or_app. left. assumption.
  - unfold update_transaction_status, bind_int.
    destruct (fits_int64 transaction_id);
      [rewrite andb_true_r | rewrite andb_false_r; assumption]. simpl.
    apply (in_map_update
             (fun t0 => if t_id t0 =? transaction_id
                        then set_status status
                               (if String.eqb status "completed"
                                then Some (System.now m) else None) t0
                        else t0)).
    assumption.
  - destruct (assign_package_to_user _ _ _ _) as [db'|e] eqn:H; [|assumption].
    apply assign_package_to_user_inv in H. destruct H as (p & e & _ & _ & ->). assumption.
  - pose proof (activate_rows_store rt (System.now m) db user_id package_id) as H.
    destruct (Endpoints.activate_user_package _ _ _ _ _) as [db' [made r]]. simpl.
    destruct H as [->|(H & _)]; [assumption|].
    apply assign_package_to_user_inv in H. destruct H as (p & e & _ & _ & ->). assumption.
Qed.

(** The completed payment of the fixtures, marked failed afterwards. *)
Lemma terminal_status_changes_by_update_only_witness :
  In (mkTransaction 1 1 9 (Integer 500) "mpesa" (Some "ws_CO_191220191020363925") "failed"
                    "254712345678" Fixtures.noon None)
     (rows (transactions
        (System.perform (System.mkMoment Fixtures.noon Fixtures.noon)
           (System.UpdateTransactionStatus 1 "failed") Fixtures.one_completed))).
Proof.
  apply (terminal_status_changes_by_update_only
           (System.mkMoment Fixtures.noon Fixtures.noon)
           (System.UpdateTransactionStatus 1 "failed") Fixtures.one_completed
           (mkTransaction 1 1 9 (Integer 500) "mpesa" (Some "ws_CO_191220191020363925") "completed"
                          "254712345678" Fixtures.noon (Some Fixtures.noon))).
  - left. reflexivity.
  - left. reflexivity.
Defined.

(** ** Activation *)

Example activation_stops_at_validity :
  Endpoints.activate_user_package Fixtures.willing_router Fixtures.noon Fixtures.one_user 1 9
  = (Fixtures.one_user,
     ([Endpoints.GetApi],
      Raise (Exception [Lit "Failed to activate package: ";
                        Lit "'"; Lit "validity"; Lit "'"]))).
Proof. reflexivity. Qed.

(** No package row has a ['validity'] key, so [activate_user_package]
    raises before it asks the router to update the hotspot user: it never
    returns normally and leaves the store as it was. *)
Lemma activate_user_package_raises rt now db user_id package_id :
  exists made e,
    Endpoints.activate_user_package rt now db user_id package_id = (db, (made, Raise e)) /\
    (made = [] \/ made = [Endpoints.GetApi]).
Proof.
  unfold Endpoints.activate_user_package, Endpoints.activate_rows, get_package_by_id.
  unfold io_bind, pure.
  destruct (bind_int package_id) as [bound|e]; cbn [bind];
    [|exists [];  eexists; split; [reflexivity | auto]].
  destruct (get_user_by_id db user_id) as [user|e];
    [|exists []; eexists; split; [reflexivity | auto]].
  destruct (find_package db bound) as [p|]; cbn [option_map];
    [|exists [];  eexists; split; [reflexivity | auto]].
  destruct user as [user|];
    [|exists []; eexists; split; [reflexivity | auto]].
  destruct (Endpoints.get_api rt) as [[]|e];
    [|exists [Endpoints.GetApi]; eexists; split; [reflexivity | auto]].
  destruct (row_getitem user "username") as [name|e];
    exists [Endpoints.GetApi]; eexists; (split; [reflexivity | auto]).
Qed.

(** C5. When a call to the router made by [activate_user_package] fails
    (the connection or the hotspot-user update raises), the store after
    the call is the store before it: no account's [current_package_id]
    or [package_expires_at] has changed. *)
Theorem activate_router_failure_keeps_store rt now db user_id package_id :
  (exists c e,
     In c (fst (snd (Endpoints.activate_user_package rt now db user_id package_id))) /\
     System.outcome_of rt c = Raise e) ->
  fst (Endpoints.activate_user_package rt now db user_id package_id) = db.
Proof.
  intros (c & e & Hin & Hfail).
  pose proof (activate_rows_store rt now db user_id package_id) as H.
  destruct (Endpoints.activate_user_package _ _ _ _ _) as [db' [made r]]. simpl in *.
  destruct H as [->|(_ & Hall & _)]; [reflexivity|].
  rewrite Forall_forall in Hall. rewrite (Hall c Hin) in Hfail. discriminate.
Qed.

(** Activation against a router that cannot be reached. *)
Lemma activate_router_failure_keeps_store_witness :
  fst (Endpoints.activate_user_package Fixtures.unreachable_router Fixtures.noon
         Fixtures.one_user 1 9) = Fixtures.one_user.
Proof.
  apply activate_router_failure_keeps_store.
  exists Endpoints.GetApi. eexists. split; [left; reflexivity | reflexivity].
Defined.

End StoreFacts.

(* ===================================================================== *)
(** * Properties of the STK push client                                  *)
(* ===================================================================== *)

Section MpesaFacts.
Import Py Mpesa.

Example local_number_is_pushed_in_international_form :
  map (fun c => match c with
                | Post _ _ data => Some (PartyA data, PhoneNumber data, Amount data)
                | Get _ _ => None
                end)
      (fst (process_payment Fixtures.accepting_gateway Fixtures.clock
              (VStr "0712345678") (VInt 500) (VStr "2 Mbps") (VStr "guest")))
  = [None; Some (VStr "254712345678", VStr "254712345678", VInt 500)].
Proof. reflexivity. Qed.

Example number_that_is_not_a_string :
  process_payment Fixtures.accepting_gateway Fixtures.clock
    (VInt 712345678) (VInt 500) (VStr "2 Mbps") (VStr "guest")
  = ([], Ok [ ("success", Val (VBool false));
              ("error", Txt [Lit "'"; Lit "int"; Lit "' object has no attribute '";
                             Lit "startswith"; Lit "'"]) ]).
Proof. reflexivity. Qed.

Example gateway_refusing_the_token :
  process_payment
    (mkGateway (fun _ _ => Ok (mkResponse 401 (Raise (Exn "JSONDecodeError" []))))
               (fun _ _ _ => Raise (Exn "ConnectionError" [])))
    Fixtures.clock (VStr "0712345678") (VInt 500) (VStr "2 Mbps") (VStr "guest")
  = ([Get "https://sandbox.safaricom.co.ke/oauth/v1/generate?grant_type=client_credentials"
          ("your_consumer_key_here", "your_consumer_secret_here")],
     Ok [ ("success", Val (VBool false));
          ("error", Txt [Lit "Access token error: "; Lit "Failed to get access token: ";
                         Str (VInt 401)]) ]).
Proof. reflexivity. Qed.

(** [get_access_token] makes the one GET and nothing else. *)
Lemma get_access_token_calls gw self :
  exists r,
    get_access_token gw self =
    ([Get (base_url self ++ "/oauth/v1/generate?grant_type=client_credentials")
          (consumer_key self, consumer_secret self)], r).
Proof.
  unfold get_access_token, try_except, io_bind, pure.
  repeat (next_case; simpl); eexists; reflexivity.
Qed.

Lemma get_dict items key default :
  get (VDict items) key default =
  Ok (match lookup key items with Some x => x | None => default end).
Proof. unfold get. destruct (lookup key items); reflexivity. Qed.

(** The shape of a dictionary returned by the client. *)
Local Abbreviation stk_outcome gw made d :=
  ((lookup "success" d = Some (Val (VBool false)) /\
    exists msg, lookup "error" d = Some (Txt msg))
   \/
   (lookup "success" d = Some (Val (VBool true)) /\
    exists url headers data resp items,
      In (Post url headers data) made /\
      requests_post gw url headers data = Ok resp /\
      status_code resp = 200 /\
      json resp = Ok (VDict items) /\
      lookup "checkout_request_id" d =
        Some (Val (match lookup "CheckoutRequestID" items with
                   | Some v => v
                   | None => VNone
                   end)))).

Ltac failure_dict :=
  eexists; eexists; split; [reflexivity|]; left; split; [reflexivity|eexists; reflexivity].

Lemma initiate_stk_push_total gw now1 now2 self phone_number amount package_name
    account_reference callback_url :
  exists made d,
    initiate_stk_push gw now1 now2 self phone_number amount package_name
                      account_reference callback_url = (made, Ok d) /\
    stk_outcome gw made d.
Proof.
  unfold initiate_stk_push.
  destruct (get_access_token_calls gw self) as [r ->].
  unfold try_except, io_bind, pure.
  destruct r as [access_token|e]; [|failure_dict].
  destruct (requests_post gw _ _ _) as [resp|e] eqn:Hpost; [|failure_dict].
  destruct (status_code resp =? 200) eqn:Hcode; [|failure_dict].
  destruct (json resp) as [result|e] eqn:Hjson; [|failure_dict].
  destruct result as [| | | | | |items]; try failure_dict.
  cbn [bind]. rewrite !get_dict. cbn [bind].
  eexists; eexists; split; [reflexivity|].
  right. split; [reflexivity|].
  do 5 eexists. split; [|split; [exact Hpost|split; [|split; [exact Hjson|reflexivity]]]].
  - apply in_or_app. right. left. reflexivity.
  - apply Z.eqb_eq. exact Hcode.
Qed.

Lemma process_payment_returns gw now phone_number amount package_name user_id :
  exists made d,
    process_payment gw now phone_number amount package_name user_id = (made, Ok d) /\
    stk_outcome gw made d.
Proof.
  unfold process_payment.
  destruct (format_phone_number phone_number) as [formatted|e].
  - destruct (initiate_stk_push_total gw (now 1%nat) (now 2%nat) mpesa formatted amount
                package_name
                [Lit "FortuNet-"; Str user_id; Lit "-"; Strftime (now 0%nat)]
                "https://your-domain.com/api/mpesa-callback")
      as (made & d & Heq & Hd).
    exists made, d. split; [|exact Hd].
    unfold try_except, io_bind, pure at 1 2. rewrite Heq. simpl.
    rewrite app_nil_r. reflexivity.
  - unfold try_except, io_bind, pure. failure_dict.
Qed.

(** C10. [process_payment] and [initiate_stk_push] return for every
    input and every behaviour of the gateway, never raising: the result
    is a dictionary whose ['success'] is a boolean; when it is false the
    dictionary has an ['error'] message, and when it is true the gateway
    answered the push with status 200 and a JSON object, whose
    [CheckoutRequestID] (None when absent) is the dictionary's
    ['checkout_request_id']. *)
Theorem process_payment_total gw now now1 now2 self phone_number amount package_name
    user_id account_reference callback_url :
  (exists made d,
     process_payment gw now phone_number amount package_name user_id = (made, Ok d) /\
     stk_outcome gw made d) /\
  (exists made d,
     initiate_stk_push gw now1 now2 self phone_number amount package_name
                       account_reference callback_url = (made, Ok d) /\
     stk_outcome gw made d).
Proof.
  split.
  - apply process_payment_returns.
  - apply initiate_stk_push_total.
Qed.

(** ** Phone numbers *)

(** Every push [initiate_stk_push] sends carries the phone number and
    the amount it was given. *)
Lemma initiate_stk_push_posts gw now1 now2 self phone_number amount package_name
    account_reference callback_url url headers data :
  In (Post url headers data)
     (fst (initiate_stk_push gw now1 now2 self phone_number amount package_name
                             account_reference callback_url)) ->
  PhoneNumber data = phone_number /\ PartyA data = phone_number /\ Amount data = amount.
Proof.
  unfold initiate_stk_push.
  destruct (get_access_token_calls gw self) as [r ->].
  unfold try_except, io_bind, pure.
  destruct r as [access_token|e].
  2:{ simpl. intros [H|[]]. discriminate. }
  repeat (next_case; cbn [fst]);
    (intros H; repeat (apply in_app_or in H; destruct H as [H|H]);
     simpl in H; repeat (destruct H as [H|H]); try contradiction; try discriminate;
     injection H as _ _ <-; auto).
Qed.

Lemma format_phone_number_str s :
  exists s', format_phone_number (VStr s) = Ok (VStr s').
Proof. simpl. repeat next_case; eexists; reflexivity. Qed.

(** Past the formatting of the number, [process_payment] is
    [initiate_stk_push]. *)
Lemma process_payment_formatted gw now phone_number formatted amount package_name user_id :
  format_phone_number phone_number = Ok formatted ->
  process_payment gw now phone_number amount package_name user_id =
  initiate_stk_push gw (now 1%nat) (now 2%nat) mpesa formatted amount package_name
    [Lit "FortuNet-"; Str user_id; Lit "-"; Strftime (now 0%nat)]
    "https://your-domain.com/api/mpesa-callback".
Proof.
  intros H. unfold process_payment. rewrite H.
  destruct (initiate_stk_push_total gw (now 1%nat) (now 2%nat) mpesa formatted amount
              package_name
              [Lit "FortuNet-"; Str user_id; Lit "-"; Strftime (now 0%nat)]
              "https://your-domain.com/api/mpesa-callback")
    as (made & d & Heq & _).
  unfold try_except, io_bind, pure at 1 2. rewrite Heq. simpl.
  rewrite app_nil_r. reflexivity.
Qed.

(** Every push [process_payment] sends carries the formatted number and
    the amount it was given. *)
Lemma process_payment_posts gw now phone_number amount package_name user_id
    url headers data :
  In (Post url headers data)
     (fst (process_payment gw now phone_number amount package_name user_id)) ->
  format_phone_number phone_number = Ok (PhoneNumber data) /\
  PartyA data = PhoneNumber data /\
  Amount data = amount.
Proof.
  destruct (format_phone_number phone_number) as [formatted|e] eqn:Hf.
  - rewrite (process_payment_formatted _ _ _ _ _ _ _ Hf). intros H.
    apply initiate_stk_push_posts in H. destruct H as (-> & -> & ->). auto.
  - unfold process_payment. rewrite Hf. simpl. contradiction.
Qed.

(** C3, as claimed, fails: a number with another prefix, here one that
    is in the international form already, is not rejected; the push is
    sent to the gateway with the number as it came. *)
Lemma other_prefix_is_sent_to_gateway :
  exists made d url headers data,
    process_payment Fixtures.accepting_gateway Fixtures.clock
      (VStr "254712345678") (VInt 500) (VStr "2 Mbps") (VStr "guest") = (made, Ok d) /\
    lookup "success" d = Some (Val (VBool true)) /\
    In (Post url headers data) made /\
    PhoneNumber data = VStr "254712345678".
Proof.
  do 5 eexists. split; [reflexivity|]. split; [reflexivity|]. split.
  - right. left. reflexivity.
  - reflexivity.
Qed.

(** C3, amended. ['0712345678'] and ['+254712345678'] both become
    ['254712345678']; in general a leading ['0'] is replaced by ['254']
    and a leading ['+'] is dropped; a string with any other prefix is
    kept as it is, not rejected. For every string the gateway is called,
    and every push sent carries the number so formatted as payer and as
    phone number. *)
Theorem phone_number_formatting :
  format_phone_number (VStr "0712345678") = Ok (VStr "254712345678") /\
  format_phone_number (VStr "+254712345678") = Ok (VStr "254712345678") /\
  (forall rest, format_phone_number (VStr (String "0" rest)) = Ok (VStr ("254" ++ rest))) /\
  (forall rest, format_phone_number (VStr (String "+" rest)) = Ok (VStr rest)) /\
  (forall s, String.prefix "0" s = false -> String.prefix "+" s = false ->
             format_phone_number (VStr s) = Ok (VStr s)) /\
  (forall gw now s amount package_name user_id,
     exists more,
       fst (process_payment gw now (VStr s) amount package_name user_id) =
       Get (base_url mpesa ++ "/oauth/v1/generate?grant_type=client_credentials")
           (consumer_key mpesa, consumer_secret mpesa) :: more) /\
  (forall gw now s amount package_name user_id url headers data,
     In (Post url headers data)
        (fst (process_payment gw now (VStr s) amount package_name user_id)) ->
     format_phone_number (VStr s) = Ok (PhoneNumber data) /\
     PartyA data = PhoneNumber data).
Proof.
  split; [reflexivity|]. split; [reflexivity|].
  split; [intros rest; destruct rest; reflexivity|].
  split; [intros rest; destruct rest; reflexivity|].
  split; [|split].
  - intros s H0 H1. unfold format_phone_number. rewrite H0, H1. reflexivity.
  - intros gw now s amount package_name user_id.
    destruct (format_phone_number_str s) as [s' Hf].
    rewrite (process_payment_formatted _ _ _ _ _ _ _ Hf).
    unfold initiate_stk_push.
    destruct (get_access_token_calls gw mpesa) as [r ->].
    unfold try_except, io_bind, pure.
    repeat (next_case; cbn [fst]); eexists; reflexivity.
  - intros gw now s amount package_name user_id url headers data H.
    apply process_payment_posts in H. destruct H as (Hf & Ha & _). auto.
Qed.

End MpesaFacts.

(* ===================================================================== *)
(** * Properties of the payment endpoints                                *)
(* ===================================================================== *)

Section EndpointFacts.
Import Py Database Endpoints.

(** ** The callback *)

(** C1 at a successful callback for a pending payment: the handler
    acknowledges and that is all. The transaction is still pending, its
    [completed_at] still NULL, the router was not called and the account
    has no package. *)
Lemma successful_callback_changes_nothing :
  mpesa_callback Fixtures.willing_router (Fixtures.noon + 60000000)
    (Ok (VDict [ ("ResultCode", VInt 0);
                 ("CheckoutRequestID", VStr "ws_CO_191220191020363925") ]))
    Fixtures.one_pending
  = (Fixtures.one_pending, ([], Ok (jsonify [("status", Txt [Lit "success"])]))) /\
  map (fun t => (t_transaction_id t, t_status t, t_completed_at t))
      (rows (transactions Fixtures.one_pending))
  = [(Some "ws_CO_191220191020363925", "pending", None)] /\
  map (fun u => (u_id u, u_current_package_id u, u_package_expires_at u))
      (rows (users Fixtures.one_pending))
  = [(1, None, None)].
Proof. repeat split. Qed.

(** C7, as claimed, fails: a body that is JSON but not an object is
    answered with status 500 and an error. *)
Lemma callback_with_array_body_is_refused :
  mpesa_callback Fixtures.willing_router Fixtures.noon (Ok (VList [])) Fixtures.one_pending
  = (Fixtures.one_pending,
     ([], Ok (mkReply [("error", Txt [Lit "'"; Lit "list";
                                      Lit "' object has no attribute '"; Lit "get"; Lit "'"])]
                      500))).
Proof. reflexivity. Qed.

(** C7, amended. Whenever the body of the callback is a JSON object the
    handler answers 200 with [{'status': 'success'}], whatever the object
    holds and whatever state the store and the router are in. A body
    that is not a JSON object, or that cannot be read at all, is
    answered with status 500 and the error's text. *)
Theorem callback_acknowledges_objects rt now db :
  (forall items,
     snd (snd (mpesa_callback rt now (Ok (VDict items)) db))
     = Ok (jsonify [("status", Txt [Lit "success"])])) /\
  (forall v, (forall items, v <> VDict items) ->
     snd (snd (mpesa_callback rt now (Ok v) db))
     = Ok (mkReply [("error", Txt (exn_str (AttributeError v "get")))] 500)) /\
  (forall e,
     snd (snd (mpesa_callback rt now (Raise e) db))
     = Ok (mkReply [("error", Txt (exn_str e))] 500)).
Proof.
  split; [|split].
  - intros items. unfold mpesa_callback, try_except, io_bind, pure.
    rewrite !get_dict.
    destruct (eq_zero _); reflexivity.
  - intros v Hv. destruct v; try reflexivity. elim (Hv items). reflexivity.
  - intros e. reflexivity.
Qed.

(** ** Payment initiation *)

Lemma lookup_override {V : Type} (key other : string) (v : V) (items : list (string * V)) :
  String.eqb other key = false ->
  lookup key ((other, v) :: items) = lookup key items.
Proof. intros H. simpl. rewrite H. reflexivity. Qed.

(** A push sent by [initiate_payment] was sent by [process_payment] on
    the fields of the request, which was a JSON object. *)
Lemma initiate_payment_posts gw now request_json db url headers data :
  In (Mpesa.Post url headers data)
     (fst (snd (initiate_payment gw now request_json db))) ->
  exists items phone_number amount package_name user_id,
    request_json = Ok (VDict items) /\
    lookup "phoneNumber" items = Some phone_number /\
    lookup "amount" items = Some amount /\
    lookup "packageName" items = Some package_name /\
    In (Mpesa.Post url headers data)
       (fst (Mpesa.process_payment gw now phone_number amount package_name user_id)).
Proof.
  unfold initiate_payment, required_fields, try_except, io_bind, pure.
  destruct request_json as [v|e]; [|simpl; contradiction].
  destruct v as [| | | | | |items];
    cbn [snd fst bind first_missing contains getitem];
    try (repeat (next_case; cbn [snd fst]); simpl; contradiction).
  destruct (lookup "phoneNumber" items) as [phone_number|] eqn:Hphone;
    [|simpl; contradiction].
  destruct (lookup "packageId" items) as [package_id|]; [|simpl; contradiction].
  destruct (lookup "amount" items) as [amount|] eqn:Hamount; [|simpl; contradiction].
  destruct (lookup "packageName" items) as [package_name|] eqn:Hname;
    [|simpl; contradiction].
  rewrite get_dict.
  set (user_id := match lookup "username" items with Some x => x | None => VStr "guest" end).
  destruct (process_payment_returns gw now phone_number amount package_name user_id)
    as (made & d & Heq & _).
  rewrite Heq. intros H.
  exists items, phone_number, amount, package_name, user_id.
  repeat (split; [first [reflexivity | assumption]|]). rewrite Heq. cbn [fst].
  revert H. repeat (next_case; cbn [fst]); simpl; rewrite ?app_nil_r; auto.
Qed.

(** C2 at a successful initiation for package 9, priced 500 in the
    catalogue, with a request amount of 1: the handler answers 200 with
    [success] and leaves the store as it was, with no transaction row
    (the [create_transaction] call under "Save transaction to database"
    is commented out); the push it sent asks the gateway for 1. *)
Lemma initiation_records_nothing_and_charges_request_amount :
  option_map p_price (find_package Fixtures.one_user 9) = Some 500 /\
  rows (transactions Fixtures.one_user) = [] /\
  exists made r url headers data,
    initiate_payment Fixtures.accepting_gateway Fixtures.clock
      (Ok (VDict [ ("phoneNumber", VStr "0712345678"); ("packageId", VInt 9);
                   ("amount", VInt 1); ("packageName", VStr "2 Mbps") ]))
      Fixtures.one_user
    = (Fixtures.one_user, (made, Ok r)) /\
    status r = 200 /\
    lookup "success" (body r) = Some (Val (VBool true)) /\
    In (Mpesa.Post url headers data) made /\
    Mpesa.Amount data = VInt 1.
Proof.
  split; [reflexivity|]. split; [reflexivity|].
  do 5 eexists. split; [reflexivity|].
  split; [reflexivity|]. split; [reflexivity|]. split.
  - right. left. reflexivity.
  - reflexivity.
Qed.

(** Every push a payment initiation sends asks for the amount named in
    the request. *)
Lemma initiation_pushes_the_request_amount gw now request_json db url headers data :
  In (Mpesa.Post url headers data)
     (fst (snd (initiate_payment gw now request_json db))) ->
  exists items,
    request_json = Ok (VDict items) /\
    lookup "amount" items = Some (Mpesa.Amount data).
Proof.
  intros H. apply initiate_payment_posts in H.
  destruct H as (items & phone_number & amount & package_name & user_id
                 & Hreq & _ & Ha & _ & H).
  apply process_payment_posts in H. destruct H as (_ & _ & ->).
  exists items. split; assumption.
Qed.

(** C8, as claimed, fails: no package has id 9999, yet the initiation
    goes to the gateway and succeeds. *)
Lemma unknown_package_reaches_gateway :
  get_package_by_id Fixtures.one_user 9999 = Ok None /\
  exists made r url headers data,
    initiate_payment Fixtures.accepting_gateway Fixtures.clock
      (Ok (VDict [ ("phoneNumber", VStr "0712345678"); ("packageId", VInt 9999);
                   ("amount", VInt 500); ("packageName", VStr "2 Mbps") ]))
      Fixtures.one_user
    = (Fixtures.one_user, (made, Ok r)) /\
    status r = 200 /\
    lookup "success" (body r) = Some (Val (VBool true)) /\
    In (Mpesa.Post url headers data) made.
Proof.
  split; [reflexivity|].
  do 5 eexists. split; [reflexivity|].
  split; [reflexivity|]. split; [reflexivity|].
  right. left. reflexivity.
Qed.

(** C8, amended. [initiate_payment] checks that the request names a
    [packageId], not that it resolves to a package: a request object
    without the field is answered 400 with a missing-field error, no
    gateway call and the store as it was; a request whose [packageId] is
    replaced by any other value gets the same reply and makes the same
    gateway calls; and neither depends on what the store holds. *)
Theorem package_id_is_required_not_resolved gw now :
  (forall items db,
     lookup "packageId" items = None ->
     exists field,
       initiate_payment gw now (Ok (VDict items)) db
       = (db, ([], Ok (mkReply [("error", Txt [Lit "Missing required field: "; Lit field])]
                               400)))) /\
  (forall items v db,
     lookup "packageId" items <> None ->
     initiate_payment gw now (Ok (VDict (("packageId", v) :: items))) db
     = initiate_payment gw now (Ok (VDict items)) db) /\
  (forall request_json db db',
     fst (initiate_payment gw now request_json db) = db /\
     snd (initiate_payment gw now request_json db)
     = snd (initiate_payment gw now request_json db')).
Proof.
  split; [|split].
  - intros items db Hnone.
    unfold initiate_payment, required_fields, try_except, io_bind, pure.
    cbn [snd fst bind first_missing contains getitem]. rewrite Hnone.
    destruct (lookup "phoneNumber" items); eexists; reflexivity.
  - intros items v db Hsome.
    unfold initiate_payment, required_fields, try_except, io_bind, pure. f_equal.
    cbn [snd fst bind first_missing contains getitem get].
    rewrite !lookup_override by reflexivity.
    replace (lookup "packageId" (("packageId", v) :: items)) with (Some v) by reflexivity.
    destruct (lookup "packageId" items) as [old|]; [reflexivity|].
    elim Hsome. reflexivity.
  - intros request_json db db'. split; reflexivity.
Qed.

End EndpointFacts.

(* ===================================================================== *)
(** * Further properties of the store: registration                      *)
(* ===================================================================== *)

Section RegistrationFacts.
Import Py Database.

Lemma existsb_find_none {A : Type} (f : A -> bool) (l : list A) :
  existsb f l = false <-> find f l = None.
Proof.
  induction l as [|a l IH]; simpl; [tauto|].
  destruct (f a); simpl; [split; discriminate | exact IH].
Qed.

Lemma find_app_none {A : Type} (f : A -> bool) (l : list A) (a : A) :
  find f l = None -> find f (l ++ [a]) = if f a then Some a else None.
Proof.
  induction l as [|b l IH]; simpl; [reflexivity|].
  destruct (f b); [discriminate | exact IH].
Qed.

Lemma find_app_other {A : Type} (f : A -> bool) (l : list A) (a : A) :
  f a = false -> find f (l ++ [a]) = find f l.
Proof.
  intros Ha. induction l as [|b l IH]; simpl; [rewrite Ha; reflexivity|].
  destruct (f b); [reflexivity | exact IH].
Qed.

Lemma option_eqb_refl s : option_eqb (Some s) s = true.
Proof. simpl. apply String.eqb_refl. Qed.

Lemma option_eqb_other s s' : s' <> s -> option_eqb (Some s) s' = false.
Proof. intros H. simpl. apply String.eqb_neq. congruence. Qed.

Example registration_then_lookup :
  option_map (fun r => (lookup "id" r, lookup "phone_number" r))
             (get_user_by_mac Fixtures.one_user "AA:BB:CC:DD:EE:FF")
  = Some (Some (SInt 1), Some (SText "0712345678")).
Proof. reflexivity. Qed.

(** X1. Registering a device whose MAC address is not in the store
    succeeds, and the device is then found by that address: the row has
    the next rowid, the phone number and e-mail given, no user name, no
    password and no package. Look-ups by any other address answer as
    before. *)
Theorem registered_device_is_found now current_timestamp db mac_address phone_number email :
  get_user_by_mac db mac_address = None ->
  exists db' r,
    create_mac_user now current_timestamp db mac_address phone_number email = Ok (db', r) /\
    lookup "id" r = Some (SInt (last_rowid (users db) + 1)) /\
    get_user_by_mac db' mac_address
    = Some [ ("id", SInt (last_rowid (users db) + 1));
             ("username", SNull);
             ("password", SNull);
             ("phone_number", SText phone_number);
             ("email", nullable SText email);
             ("mac_address", SText mac_address);
             ("created_at", STimestamp current_timestamp);
             ("last_login", SNull);
             ("is_active", SInt 1);
             ("current_package_id", SNull);
             ("package_expires_at", SNull) ] /\
    forall other, other <> mac_address ->
      get_user_by_mac db' other = get_user_by_mac db other.
Proof.
  unfold get_user_by_mac. intros Hnone.
  destruct (find _ (rows (users db))) as [u|] eqn:Hfind; [discriminate|].
  unfold create_mac_user.
  rewrite (proj2 (existsb_find_none _ _) Hfind).
  eexists. eexists. split; [reflexivity|]. split; [reflexivity|]. split.
  - simpl. rewrite (find_app_none _ _ _ Hfind). simpl.
    rewrite String.eqb_refl. reflexivity.
  - intros other Hother. simpl. rewrite find_app_other; [reflexivity|].
    apply option_eqb_other. exact Hother.
Qed.

(** A second device registers next to the one of the fixtures. *)
Lemma registered_device_is_found_witness :
  exists db' r,
    create_mac_user Fixtures.noon Fixtures.noon Fixtures.one_user
      "11:22:33:44:55:66" "0700000000" (Some "b@example.org") = Ok (db', r) /\
    lookup "id" r = Some (SInt 2) /\
    get_user_by_mac db' "11:22:33:44:55:66"
    = Some [ ("id", SInt 2);
             ("username", SNull);
             ("password", SNull);
             ("phone_number", SText "0700000000");
             ("email", SText "b@example.org");
             ("mac_address", SText "11:22:33:44:55:66");
             ("created_at", STimestamp Fixtures.noon);
             ("last_login", SNull);
             ("is_active", SInt 1);
             ("current_package_id", SNull);
             ("package_expires_at", SNull) ] /\
    forall other, other <> "11:22:33:44:55:66" ->
      get_user_by_mac db' other = get_user_by_mac Fixtures.one_user other.
Proof.
  apply (registered_device_is_found Fixtures.noon Fixtures.noon Fixtures.one_user
           "11:22:33:44:55:66" "0700000000" (Some "b@example.org")).
  reflexivity.
Defined.

(** X2. Registration is refused exactly when the identity is taken:
    [create_mac_user] raises ['MAC address already exists'] if and only
    if a user with that MAC address is in the store, and [create_user]
    raises ['Username already exists'] if and only if a user with that
    name is. *)
Theorem registration_refused_iff_taken now current_timestamp db identity
    password phone_number email :
  (create_mac_user now current_timestamp db identity phone_number email
   = Raise (ValueError "MAC address already exists")
   <-> get_user_by_mac db identity <> None) /\
  (create_user now current_timestamp db identity password phone_number email
   = Raise (ValueError "Username already exists")
   <-> get_user_by_username db identity <> None).
Proof.
  unfold create_mac_user, create_user, get_user_by_mac, get_user_by_username.
  split.
  - destruct (existsb _ _) eqn:E.
    + split; [|reflexivity]. intros _ H.
      destruct (find _ _) eqn:F; [discriminate|].
      apply existsb_find_none in F. congruence.
    + split; [discriminate|]. intros H. apply existsb_find_none in E.
      rewrite E in H. elim H. reflexivity.
  - destruct (existsb _ _) eqn:E.
    + split; [|reflexivity]. intros _ H.
      destruct (find _ _) eqn:F; [discriminate|].
      apply existsb_find_none in F. congruence.
    + split; [discriminate|]. intros H. apply existsb_find_none in E.
      rewrite E in H. elim H. reflexivity.
Qed.

(** X3. An account created with a user name that is free is then found
    by that name, holding the SHA-256 digest of the password, never the
    password itself, and no package; look-ups by other names answer as
    before. *)
Theorem created_user_is_found now current_timestamp db username password phone_number email :
  get_user_by_username db username = None ->
  exists db' r,
    create_user now current_timestamp db username password phone_number email
    = Ok (db', r) /\
    lookup "password" r = None /\
    get_user_by_username db' username
    = Some [ ("id", SInt (last_rowid (users db) + 1));
             ("username", SText username);
             ("password", SFormatted [Sha256Hex [Lit password]]);
             ("phone_number", SText phone_number);
             ("email", nullable SText email);
             ("mac_address", SNull);
             ("created_at", STimestamp current_timestamp);
             ("last_login", SNull);
             ("is_active", SInt 1);
             ("current_package_id", SNull);
             ("package_expires_at", SNull) ] /\
    forall other, other <> username ->
      get_user_by_username db' other = get_user_by_username db other.
Proof.
  unfold get_user_by_username. intros Hnone.
  destruct (find _ (rows (users db))) as [u|] eqn:Hfind; [discriminate|].
  unfold create_user.
  rewrite (proj2 (existsb_find_none _ _) Hfind).
  eexists. eexists. split; [reflexivity|]. split; [reflexivity|]. split.
  - simpl. rewrite (find_app_none _ _ _ Hfind). simpl.
    rewrite String.eqb_refl. reflexivity.
  - intros other Hother. simpl. rewrite find_app_other; [reflexivity|].
    apply option_eqb_other. exact Hother.
Qed.

Lemma created_user_is_found_witness :
  exists db' r,
    create_user Fixtures.noon Fixtures.noon Fixtures.one_user
      "amina" "s3cret" "0700000000" None = Ok (db', r) /\
    lookup "password" r = None /\
    get_user_by_username db' "amina"
    = Some [ ("id", SInt 2);
             ("username", SText "amina");
             ("password", SFormatted [Sha256Hex [Lit "s3cret"]]);
             ("phone_number", SText "0700000000");
             ("email", SNull);
             ("mac_address", SNull);
             ("created_at", STimestamp Fixtures.noon);
             ("last_login", SNull);
             ("is_active", SInt 1);
             ("current_package_id", SNull);
             ("package_expires_at", SNull) ] /\
    forall other, other <> "amina" ->
      get_user_by_username db' other = get_user_by_username Fixtures.one_user other.
Proof.
  apply (created_user_is_found Fixtures.noon Fixtures.noon Fixtures.one_user
           "amina" "s3cret" "0700000000" None).
  reflexivity.
Defined.

End RegistrationFacts.

(* ===================================================================== *)
(** * Further properties of the store: removal and row identity          *)
(* ===================================================================== *)

Section IdentityFacts.
Import Py Database.

Lemma filter_length_all {A : Type} (f : A -> bool) (l : list A) :
  List.length (filter f l) = List.length l <-> find (fun a => negb (f a)) l = None.
Proof.
  induction l as [|a l IH]; simpl; [tauto|].
  pose proof (filter_length_le f l) as Hle.
  destruct (f a); simpl.
  - rewrite <- IH. split; intros H; lia.
  - split; [intros H; lia | discriminate].
Qed.

Lemma find_filter_none {A : Type} (f : A -> bool) (l : list A) :
  find f (filter (fun a => negb (f a)) l) = None.
Proof.
  induction l as [|a l IH]; simpl; [reflexivity|].
  destruct (f a) eqn:E; simpl; [exact IH | rewrite E; exact IH].
Qed.

Lemma find_filter_other {A : Type} (f g : A -> bool) (l : list A) :
  (forall a, f a = true -> g a = true) ->
  find f (filter g l) = find f l.
Proof.
  intros H. induction l as [|a l IH]; simpl; [reflexivity|].
  destruct (g a) eqn:G; simpl.
  - rewrite IH. reflexivity.
  - destruct (f a) eqn:F; [rewrite (H a F) in G; discriminate | exact IH].
Qed.

Lemma find_ext {A : Type} (f g : A -> bool) (l : list A) :
  (forall a, f a = g a) -> find f l = find g l.
Proof.
  intros H. induction l as [|a l IH]; simpl; [reflexivity|].
  rewrite H, IH. reflexivity.
Qed.

(** X4. [delete_mac_user] raises ['MAC address not found'] exactly when
    no user has the address; when it returns, no user has the address
    any more, look-ups by other addresses answer as before, and the
    rowid counter is where it was. *)
Theorem deleted_device_is_gone db mac_address :
  (delete_mac_user db mac_address = Raise (ValueError "MAC address not found")
   <-> get_user_by_mac db mac_address = None) /\
  (forall db', delete_mac_user db mac_address = Ok db' ->
     get_user_by_mac db' mac_address = None /\
     last_rowid (users db') = last_rowid (users db) /\
     forall other, other <> mac_address ->
       get_user_by_mac db' other = get_user_by_mac db other).
Proof.
  unfold delete_mac_user, get_user_by_mac.
  set (keep := filter _ (rows (users db))).
  assert (Hzero : (Z.of_nat (List.length (rows (users db))) - Z.of_nat (List.length keep) =? 0)
                  = true
                  <-> find (fun u => option_eqb (u_mac_address u) mac_address)
                           (rows (users db)) = None).
  { rewrite Z.eqb_eq. unfold keep.
    rewrite <- (find_ext (fun u => negb (negb (option_eqb (u_mac_address u) mac_address))))
      by (intros a; apply negb_involutive).
    rewrite <- filter_length_all. lia. }
  split.
  - destruct (_ =? 0) eqn:E.
    + split; [|reflexivity]. intros _. rewrite (proj1 Hzero eq_refl). reflexivity.
    + split; [discriminate|]. intros H.
      destruct (find _ (rows (users db))) eqn:F; [discriminate|].
      first [ discriminate (proj2 Hzero eq_refl)
            | rewrite (proj2 Hzero F) in E; discriminate ].
  - intros db' H. destruct (_ =? 0); [discriminate|]. injection H as <-. simpl.
    split; [|split; [reflexivity|]].
    + unfold keep. rewrite find_filter_none. reflexivity.
    + intros other Hother. unfold keep. rewrite find_filter_other; [reflexivity|].
      intros u Hu. destruct (u_mac_address u) as [m|]; [|reflexivity]. simpl in *.
      apply String.eqb_eq in Hu. subst m.
      apply negb_true_iff. apply String.eqb_neq. congruence.
Qed.

(** ** Row identity in the stores the program can reach *)

Import Listings.

Lemma rowids_append {R : Type} (id : R -> Z) (t : table R) (r : R) :
  rowids_ok id t -> id r = last_rowid t + 1 ->
  rowids_ok id (Table (rows t ++ [r]) (last_rowid t + 1)).
Proof.
  intros (Hnd & Hall & Hpos) Hid. unfold rowids_ok. simpl. split; [|split; [|lia]].
  - rewrite map_app. simpl. apply NoDup_app; [exact Hnd | repeat constructor; auto |].
    intros z Hz [<-|[]]. apply in_map_iff in Hz. destruct Hz as (r' & Hr' & Hin).
    rewrite Forall_forall in Hall. specialize (Hall r' Hin). lia.
  - apply Forall_app. split.
    + eapply Forall_impl; [|exact Hall]. simpl. intros a Ha. lia.
    + constructor; [lia | constructor].
Qed.

Lemma NoDup_map_filter {A B : Type} (f : A -> B) (g : A -> bool) (l : list A) :
  NoDup (map f l) -> NoDup (map f (filter g l)).
Proof.
  induction l as [|a l IH]; simpl; [auto|].
  intros H. inversion H as [|? ? Hnotin Hnd]; subst.
  destruct (g a); simpl; [|auto].
  constructor; [|auto]. intros Hin. apply Hnotin.
  apply in_map_iff in Hin. destruct Hin as (x & Hx & Hin).
  apply filter_In in Hin. apply in_map_iff. exists x. tauto.
Qed.

Lemma rowids_filter {R : Type} (id : R -> Z) (t : table R) (g : R -> bool) :
  rowids_ok id t -> rowids_ok id (Table (filter g (rows t)) (last_rowid t)).
Proof.
  intros (Hnd & Hall & Hpos). unfold rowids_ok. simpl. split; [|split; [|exact Hpos]].
  - apply NoDup_map_filter. exact Hnd.
  - rewrite Forall_forall in *. intros r Hr. apply filter_In in Hr. apply Hall. tauto.
Qed.

Lemma map_map_same {A B : Type} (f : A -> B) (g : A -> A) (l : list A) :
  (forall a, f (g a) = f a) -> map f (map g l) = map f l.
Proof.
  intros H. rewrite map_map. apply map_ext. exact H.
Qed.

Lemma rowids_map {R : Type} (id : R -> Z) (t : table R) (g : R -> R) :
  (forall r, id (g r) = id r) ->
  rowids_ok id t -> rowids_ok id (Table (map g (rows t)) (last_rowid t)).
Proof.
  intros Hg (Hnd & Hall & Hpos). unfold rowids_ok. simpl. split; [|split; [|exact Hpos]].
  - rewrite map_map_same by exact Hg. exact Hnd.
  - rewrite Forall_forall in *. intros r Hr. apply in_map_iff in Hr.
    destruct Hr as (r' & <- & Hin). rewrite Hg. apply Hall. exact Hin.
Qed.

Lemma rowids_insert_packages current_timestamp ps (t : table package) :
  rowids_ok p_id t -> rowids_ok p_id (insert_packages current_timestamp ps t).
Proof.
  revert t. induction ps as [|[[[[[[name description] price] hours] gb] mbps] ty] ps IH];
    intros t Ht; simpl; [exact Ht|].
  apply IH.
  apply (rowids_append p_id t
           (mkPackage (last_rowid t + 1) name (Some description) price hours gb mbps ty true
                      current_timestamp)); [exact Ht | reflexivity].
Qed.

Local Abbreviation identities_ok db :=
  (NoDup (non_null (map u_mac_address (rows (users db)))) /\
   NoDup (non_null (map u_username (rows (users db))))).

Local Abbreviation store_ok db :=
  (rowids_ok u_id (users db) /\ rowids_ok p_id (packages db) /\
   rowids_ok t_id (transactions db) /\ identities_ok db).

Lemma non_null_app {A : Type} (l l' : list (option A)) :
  non_null (l ++ l') = (non_null l ++ non_null l')%list.
Proof. unfold non_null. apply flat_map_app. Qed.

Lemma in_non_null {A : Type} (a : A) (l : list (option A)) :
  In a (non_null l) <-> In (Some a) l.
Proof.
  unfold non_null. rewrite in_flat_map. split.
  - intros ([x|] & Hin & Hx); simpl in Hx; [|contradiction].
    destruct Hx as [<-|[]]. exact Hin.
  - intros H. exists (Some a). simpl. auto.
Qed.

Lemma NoDup_non_null_filter {A B : Type} (f : A -> option B) (g : A -> bool) (l : list A) :
  NoDup (non_null (map f l)) ->
  NoDup (non_null (map f (filter g l))).
Proof.
  induction l as [|a l IH]; simpl; [auto|].
  destruct (g a); simpl.
  - destruct (f a) as [b|]; simpl; [|exact IH].
    intros H. inversion H as [|? ? Hnotin Hnd]; subst.
    constructor; [|auto]. intros Hin. apply Hnotin.
    apply in_non_null in Hin. apply in_non_null.
    apply in_map_iff in Hin. destruct Hin as (x & Hx & Hin).
    apply filter_In in Hin. apply in_map_iff. exists x. tauto.
  - destruct (f a) as [b|]; simpl; [|exact IH].
    intros H. inversion H; subst. auto.
Qed.

Lemma NoDup_non_null_fresh (f : user -> option string) (l : list user) (u : user) (s : string) :
  existsb (fun v => option_eqb (f v) s) l = false ->
  f u = Some s ->
  NoDup (non_null (map f l)) ->
  NoDup (non_null (map f (l ++ [u]))).
Proof.
  intros Hfresh Hu Hnd. rewrite map_app, non_null_app. simpl. rewrite Hu. simpl.
  apply NoDup_app; [exact Hnd | repeat constructor; auto |].
  intros x Hx [<-|[]]. apply in_non_null in Hx. apply in_map_iff in Hx.
  destruct Hx as (v & Hv & Hin).
  assert (E : existsb (fun v => option_eqb (f v) s) l = true).
  { apply existsb_exists. exists v. split; [exact Hin|]. rewrite Hv. apply option_eqb_refl. }
  congruence.
Qed.

Lemma NoDup_non_null_null (f : user -> option string) (l : list user) (u : user) :
  f u = None ->
  NoDup (non_null (map f l)) ->
  NoDup (non_null (map f (l ++ [u]))).
Proof.
  intros Hu Hnd. rewrite map_app, non_null_app. simpl. rewrite Hu. simpl.
  rewrite app_nil_r. exact Hnd.
Qed.

Lemma store_ok_assign now db user_id package_id db' :
  assign_package_to_user now db user_id package_id = Ok db' ->
  store_ok db -> store_ok db'.
Proof.
  intros H (Hu & Hp & Ht & Hmac & Hname).
  apply assign_package_to_user_inv in H. destruct H as (p & e & _ & _ & ->). simpl.
  split; [|split; [exact Hp|split; [exact Ht|split]]].
  - apply (rowids_map u_id (users db)); [|exact Hu].
    intros u. destruct (u_id u =? user_id); reflexivity.
  - rewrite map_map_same; [exact Hmac|]. intros u. destruct (u_id u =? user_id); reflexivity.
  - rewrite map_map_same; [exact Hname|]. intros u. destruct (u_id u =? user_id); reflexivity.
Qed.

Lemma store_ok_perform m op db : store_ok db -> store_ok (System.perform m op db).
Proof.
  intros Hok. pose proof Hok as (Hu & Hp & Ht & Hmac & Hname).
  destruct op; simpl; try exact Hok.
  - unfold init_database, insert_default_packages. destruct (0 <? _); [exact Hok|].
    simpl. pose proof (rowids_insert_packages (System.current_timestamp m)
                         default_packages (packages db) Hp) as H.
    tauto.
  - unfold create_mac_user. destruct (existsb _ _) eqn:E; [exact Hok|]. simpl.
    split; [|split; [exact Hp|split; [exact Ht|split]]].
    + apply (rowids_append u_id (users db)); [exact Hu | reflexivity].
    + apply (NoDup_non_null_fresh u_mac_address _ _ mac_address); auto.
    + apply NoDup_non_null_null; auto.
  - unfold delete_mac_user. destruct (_ =? 0); [exact Hok|]. simpl.
    split; [|split; [exact Hp|split; [exact Ht|split]]].
    + apply (rowids_filter u_id (users db)). exact Hu.
    + apply NoDup_non_null_filter. exact Hmac.
    + apply NoDup_non_null_filter. exact Hname.
  - unfold create_user. destruct (existsb _ _) eqn:E; [exact Hok|]. simpl.
    split; [|split; [exact Hp|split; [exact Ht|split]]].
    + apply (rowids_append u_id (users db)); [exact Hu | reflexivity].
    + apply NoDup_non_null_null; auto.
    + apply (NoDup_non_null_fresh u_username _ _ username); auto.
  - unfold update_last_login, bind_int. destruct (fits_int64 user_id); [|exact Hok]. simpl.
    split; [|split; [exact Hp|split; [exact Ht|split]]].
    + apply (rowids_map u_id (users db)); [|exact Hu].
      intros u. destruct (u_id u =? user_id); reflexivity.
    + rewrite map_map_same; [exact Hmac|].
      intros u. destruct (u_id u =? user_id); reflexivity.
    + rewrite map_map_same; [exact Hname|].
      intros u. destruct (u_id u =? user_id); reflexivity.
  - unfold create_transaction, bind_int.
    destruct (fits_int64 user_id); [|exact Hok].
    destruct (fits_int64 package_id); [|exact Hok]. cbn [bind].
    destruct (numeric_affinity amount); [|exact Hok]. simpl.
    split; [exact Hu|split; [exact Hp|split; [|split; assumption]]].
    apply (rowids_append t_id (transactions db)); [exact Ht | reflexivity].
  - unfold update_transaction_status, bind_int.
    destruct (fits_int64 transaction_id); [|exact Hok]. simpl.
    split; [exact Hu|split; [exact Hp|split; [|split; assumption]]].
    apply (rowids_map t_id (transactions db)); [|exact Ht].
    intros t. destruct (t_id t =? transaction_id); reflexivity.
  - destruct (assign_package_to_user _ _ _ _) as [db'|e] eqn:H; [|exact Hok].
    eapply store_ok_assign; eassumption.
  - pose proof (activate_rows_store rt (System.now m) db user_id package_id) as H.
    destruct (Endpoints.activate_user_package _ _ _ _ _) as [db' [made r]]. simpl.
    destruct H as [->|(H & _)]; [exact Hok|].
    eapply store_ok_assign; eassumption.
Qed.

Lemma store_ok_run ops db : store_ok db -> store_ok (System.run ops db).
Proof.
  revert db. induction ops as [|[m op] ops IH]; intros db Hdb; simpl; [exact Hdb|].
  apply IH. apply store_ok_perform. exact Hdb.
Qed.

Lemma store_ok_empty : store_ok empty.
Proof. unfold rowids_ok. simpl. repeat split; try constructor; lia. Qed.

(** X5. In every store reached from the freshly created database, in
    each of the three tables the rowids are pairwise distinct, positive
    and at most the table's rowid counter, after which the next row is
    numbered. *)
Theorem rowids_are_unique (ops : list (System.moment * System.operation)) :
  (NoDup (map u_id (rows (users (System.run ops empty)))) /\
   Forall (fun u => 0 < u_id u <= last_rowid (users (System.run ops empty)))
          (rows (users (System.run ops empty)))) /\
  (NoDup (map p_id (rows (packages (System.run ops empty)))) /\
   Forall (fun p => 0 < p_id p <= last_rowid (packages (System.run ops empty)))
          (rows (packages (System.run ops empty)))) /\
  (NoDup (map t_id (rows (transactions (System.run ops empty)))) /\
   Forall (fun t => 0 < t_id t <= last_rowid (transactions (System.run ops empty)))
          (rows (transactions (System.run ops empty)))).
Proof.
  pose proof (store_ok_run ops empty store_ok_empty) as H.
  unfold rowids_ok in H. tauto.
Qed.

(** X6. In every store reached from the freshly created database no two
    users share a MAC address and no two users share a user name (NULL
    apart). *)
Theorem identities_are_unique (ops : list (System.moment * System.operation)) :
  NoDup (non_null (map u_mac_address (rows (users (System.run ops empty))))) /\
  NoDup (non_null (map u_username (rows (users (System.run ops empty))))).
Proof.
  pose proof (store_ok_run ops empty store_ok_empty) as H. tauto.
Qed.

End IdentityFacts.

(* ===================================================================== *)
(** * Further properties of the store: catalogue, updates, entitlement   *)
(* ===================================================================== *)

Section AssignmentFacts.
Import Py Database Listings.

Lemma insert_packages_rows current_timestamp ps (t : table package) :
  exists more,
    rows (insert_packages current_timestamp ps t) = (rows t ++ more)%list /\
    List.length more = List.length ps /\
    Forall (fun p => p_is_active p = true) more.
Proof.
  revert t. induction ps as [|[[[[[[name description] price] hours] gb] mbps] ty] ps IH];
    intros t; simpl.
  - exists []. rewrite app_nil_r. repeat split. constructor.
  - destruct (IH (Table (rows t ++ [mkPackage (last_rowid t + 1) name (Some description)
                                         price hours gb mbps ty true current_timestamp])
                        (last_rowid t + 1))) as (more & Hrows & Hlen & Hact).
    simpl in Hrows. rewrite <- app_assoc in Hrows.
    eexists. split; [exact Hrows|]. split.
    + simpl. rewrite Hlen. reflexivity.
    + constructor; [reflexivity | exact Hact].
Qed.

(** X7. [init_database] fills an empty catalogue with the twelve default
    packages, all active, and leaves a catalogue that has any row as it
    is; it never touches users or transactions, and running it again
    changes nothing. *)
Theorem init_database_is_idempotent current_timestamp later db :
  init_database later (init_database current_timestamp db)
  = init_database current_timestamp db /\
  users (init_database current_timestamp db) = users db /\
  transactions (init_database current_timestamp db) = transactions db /\
  (rows (packages db) <> [] -> init_database current_timestamp db = db) /\
  (rows (packages db) = [] ->
   List.length (rows (packages (init_database current_timestamp db))) = 12%nat /\
   Forall (fun p => p_is_active p = true)
          (rows (packages (init_database current_timestamp db)))).
Proof.
  unfold init_database, insert_default_packages.
  destruct (insert_packages_rows current_timestamp default_packages (packages db))
    as (more & Hrows & Hlen & Hact).
  destruct (rows (packages db)) as [|p ps] eqn:E.
  - change (0 <? Z.of_nat (@List.length package [])) with false. cbv iota.
    cbn [packages users transactions with_packages].
    rewrite Hrows.
    destruct more as [|q more]; [discriminate Hlen|].
    change (0 <? Z.of_nat (List.length ([] ++ q :: more))) with true. cbv iota.
    split; [reflexivity|]. split; [reflexivity|]. split; [reflexivity|].
    split; [intros H; elim H; reflexivity|].
    intros _. split; [exact Hlen | exact Hact].
  - change (0 <? Z.of_nat (List.length (p :: ps))) with true. cbv iota.
    rewrite E.
    change (0 <? Z.of_nat (List.length (p :: ps))) with true. cbv iota.
    split; [reflexivity|]. split; [reflexivity|]. split; [reflexivity|].
    split; [reflexivity|]. discriminate.
Qed.

Lemma map_unchanged {A : Type} (f : A -> A) (l : list A) :
  (forall a, In a l -> f a = a) -> map f l = l.
Proof.
  intros H. induction l as [|a l IH]; simpl; [reflexivity|].
  rewrite H by (left; reflexivity). rewrite IH; [reflexivity|].
  intros b Hb. apply H. right. exact Hb.
Qed.

(** X8. An update by id that matches no row is silent: for a 64-bit id
    that no transaction has, [update_transaction_status] returns the
    store unchanged, and for a 64-bit id that no user has so does
    [update_last_login]; neither reports the miss. An id that is not a
    64-bit integer, which no row has, is not bound: the update raises
    [OverflowError]. *)
Theorem update_of_unknown_id_changes_nothing now current_timestamp db id status :
  ((forall t, In t (rows (transactions db)) -> t_id t <> id) ->
   update_transaction_status now db id status
   = if fits_int64 id then Ok db else Raise int_too_large) /\
  ((forall u, In u (rows (users db)) -> u_id u <> id) ->
   update_last_login current_timestamp db id
   = if fits_int64 id then Ok db else Raise int_too_large).
Proof.
  destruct db as [[us ulast] ps [ts tlast]].
  unfold update_transaction_status, update_last_login, bind_int.
  destruct (fits_int64 id); [|split; reflexivity].
  unfold with_transactions, with_users. simpl.
  split; intros H; f_equal; f_equal; f_equal; apply map_unchanged.
  - intros t Hin. destruct (t_id t =? id) eqn:E; [|reflexivity].
    apply Z.eqb_eq in E. elim (H t Hin E).
  - intros u Hin. destruct (u_id u =? id) eqn:E; [|reflexivity].
    apply Z.eqb_eq in E. elim (H u Hin E).
Qed.

(** The transaction's id, 1, is the user's too: the status update of id
    7 and the login update of id 7 both miss, and so do those of an id
    beyond 64 bits. *)
Lemma update_of_unknown_id_changes_nothing_witness :
  (update_transaction_status Fixtures.noon Fixtures.one_pending 7 "completed"
   = Ok Fixtures.one_pending /\
   update_last_login Fixtures.noon Fixtures.one_pending 7 = Ok Fixtures.one_pending) /\
  (update_transaction_status Fixtures.noon Fixtures.one_pending (2 ^ 63) "completed"
   = Raise int_too_large /\
   update_last_login Fixtures.noon Fixtures.one_pending (2 ^ 63) = Raise int_too_large).
Proof.
  split.
  - destruct (update_of_unknown_id_changes_nothing
                Fixtures.noon Fixtures.noon Fixtures.one_pending 7 "completed") as [Ht Hu].
    split; [apply Ht | apply Hu]; intros x [<-|[]]; simpl; lia.
  - destruct (update_of_unknown_id_changes_nothing
                Fixtures.noon Fixtures.noon Fixtures.one_pending (2 ^ 63) "completed")
      as [Ht Hu].
    split; [apply Ht | apply Hu]; intros x [<-|[]]; simpl; lia.
Defined.

Lemma assign_package_to_user_returns now db user_id package_id p :
  fits_int64 package_id = true ->
  find_package db package_id = Some p ->
  0 <= now <= datetime_max ->
  0 <= now + p_duration_hours p * 3600 * 1000000 <= datetime_max ->
  assign_package_to_user now db user_id package_id
  = (user_id <- bind_int user_id ;;
     Ok (with_users db
           (Table (map (fun u => if u_id u =? user_id
                                 then set_package package_id
                                        (now + p_duration_hours p * 3600 * 1000000) u
                                 else u)
                       (rows (users db)))
                  (last_rowid (users db))))).
Proof.
  intros Hfits Hp Hnow Hexp.
  rewrite (assign_package_to_user_found _ _ _ _ _ Hfits Hp).
  unfold timedelta_hours, datetime_add, bind.
  assert (Hd : (-999999999 <=? p_duration_hours p / 24) &&
               (p_duration_hours p / 24 <=? 999999999) = true).
  { unfold datetime_max in *. apply andb_true_iff. split; apply Z.leb_le.
    - apply Z.div_le_lower_bound; lia.
    - apply Z.lt_succ_r. apply Z.div_lt_upper_bound; lia. }
  rewrite Hd.
  assert (Hr : (0 <=? now + p_duration_hours p * 3600 * 1000000) &&
               (now + p_duration_hours p * 3600 * 1000000 <=? datetime_max) = true).
  { apply andb_true_iff. split; apply Z.leb_le; lia. }
  rewrite Hr. reflexivity.
Qed.

(** What is left of [assign_package_to_user] when the package is found
    and its expiry is not a date. *)
Lemma assign_package_to_user_no_date now db user_id package_id p :
  fits_int64 package_id = true ->
  find_package db package_id = Some p ->
  ~ (0 <= now + p_duration_hours p * 3600 * 1000000 <= datetime_max) ->
  exists e,
    assign_package_to_user now db user_id package_id = Raise e /\
    e <> int_too_large /\ e <> ValueError "Package not found".
Proof.
  intros Hfits Hp Hexp.
  rewrite (assign_package_to_user_found _ _ _ _ _ Hfits Hp).
  unfold timedelta_hours, datetime_add, bind.
  destruct (_ && _);
    [|eexists; split; [reflexivity | split; discriminate]].
  destruct ((0 <=? _) && _) eqn:Hr;
    [|eexists; split; [reflexivity | split; discriminate]].
  apply andb_true_iff in Hr. destruct Hr as [H0 H1].
  apply Z.leb_le in H0. apply Z.leb_le in H1. lia.
Qed.

(** X9. With the clock a valid date, [assign_package_to_user] returns
    normally exactly when both ids are 64-bit integers, an active
    package has the package id and the expiry, the clock plus its hours,
    is a date up to the year 9999. It raises ['Package not found']
    exactly when the package id is a 64-bit integer that no active
    package has, whatever the user id. It raises the [OverflowError] of
    the binding exactly when the package id is not a 64-bit integer, or
    the user id is not one while the package is found with an expiry
    that is a date. *)
Theorem assignment_succeeds_iff now db user_id package_id :
  0 <= now <= datetime_max ->
  ((exists db', assign_package_to_user now db user_id package_id = Ok db')
   <-> fits_int64 package_id = true /\ fits_int64 user_id = true /\
       exists p, find_package db package_id = Some p /\
                 0 <= now + p_duration_hours p * 3600 * 1000000 <= datetime_max) /\
  (assign_package_to_user now db user_id package_id = Raise (ValueError "Package not found")
   <-> get_package_by_id db package_id = Ok None) /\
  (assign_package_to_user now db user_id package_id = Raise int_too_large
   <-> fits_int64 package_id = false \/
       (fits_int64 user_id = false /\
        exists p, find_package db package_id = Some p /\
                  0 <= now + p_duration_hours p * 3600 * 1000000 <= datetime_max)).
Proof.
  intros Hnow.
  destruct (fits_int64 package_id) eqn:Hpk.
  2:{ assert (Hraise : assign_package_to_user now db user_id package_id
                       = Raise int_too_large).
      { unfold assign_package_to_user, get_package_by_id.
        rewrite (bind_int_overflow _ Hpk). reflexivity. }
      rewrite Hraise. unfold get_package_by_id. rewrite (bind_int_overflow _ Hpk).
      split; [|split]; split; try discriminate; auto.
      - intros [db' H]. discriminate.
      - intros (H & _). discriminate. }
  assert (Hget : get_package_by_id db package_id
                 = Ok (option_map package_dict (find_package db package_id))).
  { unfold get_package_by_id. rewrite (bind_int_fits _ Hpk). reflexivity. }
  rewrite Hget.
  destruct (find_package db package_id) as [p|] eqn:Hp.
  2:{ assert (Hraise : assign_package_to_user now db user_id package_id
                       = Raise (ValueError "Package not found")).
      { unfold assign_package_to_user. rewrite Hget. reflexivity. }
      rewrite Hraise.
      split; [|split]; split; try discriminate; auto.
      - intros [db' H]. discriminate.
      - intros (_ & _ & q & Hq & _). discriminate.
      - intros [H|(_ & q & Hq & _)]; discriminate. }
  assert (Hdec : (0 <= now + p_duration_hours p * 3600 * 1000000 <= datetime_max) \/
                 ~ (0 <= now + p_duration_hours p * 3600 * 1000000 <= datetime_max))
    by lia.
  destruct Hdec as [Hexp|Hexp].
  - rewrite (assign_package_to_user_returns now db user_id package_id p Hpk Hp Hnow Hexp).
    destruct (fits_int64 user_id) eqn:Hus.
    + rewrite (bind_int_fits _ Hus). cbn [bind option_map].
      split; [|split]; split; try discriminate.
      * intros _. split; [reflexivity|]. split; [reflexivity|]. exists p. auto.
      * intros _. eexists. reflexivity.
      * intros [H|(H & _)]; discriminate.
    + rewrite (bind_int_overflow _ Hus). cbn [bind option_map].
      split; [|split]; split; try discriminate.
      * intros [db' H]. discriminate.
      * intros (_ & H & _). discriminate.
      * intros _. right. split; [reflexivity|]. exists p. auto.
      * intros _. reflexivity.
  - destruct (assign_package_to_user_no_date now db user_id package_id p Hpk Hp Hexp)
      as (e & -> & Hne1 & Hne2).
    cbn [option_map].
    split; [|split]; split; try discriminate.
    + intros [db' H]. discriminate.
    + intros (_ & _ & q & Hq & Hr). injection Hq as <-. contradiction.
    + intros H. injection H as ->. elim Hne2. reflexivity.
    + intros H. injection H as ->. elim Hne1. reflexivity.
    + intros [H|(_ & q & Hq & Hr)]; [discriminate|]. injection Hq as <-. contradiction.
Qed.

(** The device of the fixtures and package 9 at noon. *)
Lemma assignment_succeeds_iff_witness :
  ((exists db', assign_package_to_user Fixtures.noon Fixtures.one_user 1 9 = Ok db')
   <-> fits_int64 9 = true /\ fits_int64 1 = true /\
       exists p, find_package Fixtures.one_user 9 = Some p /\
                 0 <= Fixtures.noon + p_duration_hours p * 3600 * 1000000 <= datetime_max) /\
  (assign_package_to_user Fixtures.noon Fixtures.one_user 1 9
   = Raise (ValueError "Package not found")
   <-> get_package_by_id Fixtures.one_user 9 = Ok None) /\
  (assign_package_to_user Fixtures.noon Fixtures.one_user 1 9 = Raise int_too_large
   <-> fits_int64 9 = false \/
       (fits_int64 1 = false /\
        exists p, find_package Fixtures.one_user 9 = Some p /\
                  0 <= Fixtures.noon + p_duration_hours p * 3600 * 1000000 <= datetime_max)).
Proof.
  apply assignment_succeeds_iff. unfold Fixtures.noon, datetime_max. lia.
Defined.

(** X10. Assigning an active package to a user id that no row has is not
    an error: with both ids 64-bit integers [assign_package_to_user]
    returns normally and the store is exactly as it was. With an id that
    is not a 64-bit integer it raises the [OverflowError] of the
    binding. *)
Theorem assignment_to_unknown_user_is_silent now db user_id package_id p :
  find_package db package_id = Some p ->
  0 <= now <= datetime_max ->
  0 <= now + p_duration_hours p * 3600 * 1000000 <= datetime_max ->
  (forall u, In u (rows (users db)) -> u_id u <> user_id) ->
  assign_package_to_user now db user_id package_id
  = if fits_int64 package_id && fits_int64 user_id then Ok db else Raise int_too_large.
Proof.
  intros Hp Hnow Hexp Hu.
  destruct (fits_int64 package_id) eqn:Hpk; cbn [andb];
    [|unfold assign_package_to_user, get_package_by_id;
      rewrite (bind_int_overflow _ Hpk); reflexivity].
  rewrite (assign_package_to_user_returns now db user_id package_id p Hpk Hp Hnow Hexp).
  destruct (fits_int64 user_id) eqn:Hus;
    [rewrite (bind_int_fits _ Hus) | rewrite (bind_int_overflow _ Hus); reflexivity].
  cbn [bind].
  f_equal. destruct db as [[us ulast] ps ts]. unfold with_users. simpl in *.
  f_equal. f_equal. apply map_unchanged.
  intros u Hin. destruct (u_id u =? user_id) eqn:E; [|reflexivity].
  apply Z.eqb_eq in E. elim (Hu u Hin E).
Qed.

(** User 42 does not exist; nor does user 2 ^ 63, which is not bound. *)
Lemma assignment_to_unknown_user_is_silent_witness :
  assign_package_to_user Fixtures.noon Fixtures.one_user 42 9 = Ok Fixtures.one_user /\
  assign_package_to_user Fixtures.noon Fixtures.one_user (2 ^ 63) 9 = Raise int_too_large.
Proof.
  split.
  - apply (assignment_to_unknown_user_is_silent Fixtures.noon Fixtures.one_user 42 9
             (mkPackage 9 "2 Mbps" (Some "2 Mbps unlimited for 30 days") 500 720
                        None (Some 2) "monthly" true Fixtures.noon)).
    + reflexivity.
    + unfold Fixtures.noon, datetime_max. lia.
    + unfold Fixtures.noon, datetime_max. simpl. lia.
    + intros u [<-|[]]. simpl. lia.
  - apply (assignment_to_unknown_user_is_silent Fixtures.noon Fixtures.one_user (2 ^ 63) 9
             (mkPackage 9 "2 Mbps" (Some "2 Mbps unlimited for 30 days") 500 720
                        None (Some 2) "monthly" true Fixtures.noon)).
    + reflexivity.
    + unfold Fixtures.noon, datetime_max. lia.
    + unfold Fixtures.noon, datetime_max. simpl. lia.
    + intros u [<-|[]]. simpl. lia.
Defined.

(** X11. The last assignment wins: once a package has been assigned to a
    user, assigning again, the same package or another, gives what the
    second assignment alone would have given. A renewal replaces the
    expiry; it does not extend it. *)
Theorem reassignment_replaces now1 now2 db user_id package1 package2 db1 :
  assign_package_to_user now1 db user_id package1 = Ok db1 ->
  assign_package_to_user now2 db1 user_id package2
  = assign_package_to_user now2 db user_id package2.
Proof.
  intros H1. apply assign_package_to_user_inv in H1.
  destruct H1 as (p1 & e1 & _ & _ & ->).
  unfold assign_package_to_user, get_package_by_id, find_package.
  cbn [packages with_users users rows last_rowid].
  destruct (bind_int package2) as [bound|e]; [|reflexivity]. cbn [bind].
  destruct (find _ (rows (packages db))) as [p|]; [|reflexivity].
  cbn [option_map]. destruct (row_getitem _ _) as [hours|e]; [|reflexivity].
  cbn [bind]. destruct (timedelta_hours hours) as [delta|e]; [|reflexivity].
  cbn [bind]. destruct (datetime_add now2 delta) as [expires_at|e]; [|reflexivity].
  cbn [bind]. destruct (bind_int user_id) as [bound_user|e] eqn:Hb; [|reflexivity].
  apply bind_int_inv in Hb. destruct Hb as [-> _].
  cbn [bind]. unfold with_users. cbn [packages transactions]. do 3 f_equal.
  rewrite map_map. apply map_ext. intros u.
  destruct (u_id u =? user_id) eqn:E.
  - cbn [set_package u_id]. rewrite E. reflexivity.
  - rewrite E. reflexivity.
Qed.

Lemma reassignment_replaces_witness :
  assign_package_to_user (Fixtures.noon + 1000000)
    (match assign_package_to_user Fixtures.noon Fixtures.one_user 1 9 with
     | Ok db1 => db1
     | Raise _ => Fixtures.one_user
     end) 1 1
  = assign_package_to_user (Fixtures.noon + 1000000) Fixtures.one_user 1 1.
Proof.
  apply (reassignment_replaces Fixtures.noon (Fixtures.noon + 1000000) Fixtures.one_user
           1 9 1).
  reflexivity.
Defined.

Example renewal_does_not_extend :
  option_map (fun db' => map u_package_expires_at (rows (users db')))
    (match assign_package_to_user (Fixtures.noon + 1000000)
             (match assign_package_to_user Fixtures.noon Fixtures.one_user 1 9 with
              | Ok db1 => db1
              | Raise _ => Fixtures.one_user
              end) 1 1 with
     | Ok db2 => Some db2
     | Raise _ => None
     end)
  = Some [Some (Fixtures.noon + 1000000 + 24 * 3600 * 1000000)].
Proof. reflexivity. Qed.

Lemma find_map_same_key {A : Type} (key : A -> bool) (f : A -> A) (l : list A) :
  (forall a, key (f a) = key a) ->
  find key (map f l) = option_map f (find key l).
Proof.
  intros H. induction l as [|a l IH]; simpl; [reflexivity|].
  rewrite H. destruct (key a); [reflexivity | exact IH].
Qed.

(** X12. After a successful assignment to a user that exists,
    [check_user_package_status] reports the package assigned and the
    expiry, and reports the package active at exactly the times before
    the expiry: the clock at assignment plus the package's hours. *)
Theorem entitlement_lasts_until_expiry now db user_id package_id db' :
  assign_package_to_user now db user_id package_id = Ok db' ->
  (exists u, In u (rows (users db)) /\ u_id u = user_id) ->
  exists p,
    find_package db package_id = Some p /\
    forall t,
      exists status,
        check_user_package_status t db' user_id = Ok status /\
        lookup "has_active_package" status
        = Some (Flag (t <? now + p_duration_hours p * 3600 * 1000000)) /\
        lookup "package_id" status = Some (Column (SInt package_id)) /\
        lookup "expires_at" status
        = Some (Column (STimestamp (now + p_duration_hours p * 3600 * 1000000))).
Proof.
  intros H (u & Hin & Hid).
  destruct (assign_package_to_user_fits _ _ _ _ _ H) as [Hfits _].
  apply assign_package_to_user_inv in H.
  destruct H as (p & e & Hp & -> & ->). exists p. split; [exact Hp|].
  intros t. unfold check_user_package_status.
  rewrite (bind_int_fits _ Hfits). cbn [bind users with_users rows].
  rewrite find_map_same_key
    by (intros a; destruct (u_id a =? user_id) eqn:E; cbn [set_package u_id];
        rewrite ?E; reflexivity).
  destruct (find (fun u0 => u_id u0 =? user_id) (rows (users db))) as [u0|] eqn:Hfind.
  - apply find_some in Hfind. destruct Hfind as [_ Hu0].
    cbn [option_map]. rewrite Hu0. eexists. split; [reflexivity|]. cbn. repeat split.
  - exfalso. apply (find_none _ _ Hfind) in Hin. apply Z.eqb_neq in Hin. auto.
Qed.

Lemma entitlement_lasts_until_expiry_witness :
  exists p,
    find_package Fixtures.one_user 9 = Some p /\
    forall t,
      exists status,
        check_user_package_status t
          (match assign_package_to_user Fixtures.noon Fixtures.one_user 1 9 with
           | Ok db' => db'
           | Raise _ => Fixtures.one_user
           end) 1 = Ok status /\
        lookup "has_active_package" status
        = Some (Flag (t <? Fixtures.noon + p_duration_hours p * 3600 * 1000000)) /\
        lookup "package_id" status = Some (Column (SInt 9)) /\
        lookup "expires_at" status
        = Some (Column (STimestamp (Fixtures.noon + p_duration_hours p * 3600 * 1000000))).
Proof.
  apply (entitlement_lasts_until_expiry Fixtures.noon Fixtures.one_user 1 9).
  - reflexivity.
  - eexists. split; [left; reflexivity | reflexivity].
Defined.

End AssignmentFacts.

(* ===================================================================== *)
(** * Properties of the listings                                         *)
(* ===================================================================== *)

Section ListingFacts.
Import Py Database Listings.

Lemma insert_in_order_perm {A : Type} (leb : A -> A -> bool) (x : A) (l : list A) :
  Permutation (insert_in_order leb x l) (x :: l).
Proof.
  induction l as [|y l IH]; simpl; [reflexivity|].
  destruct (leb x y); [reflexivity|].
  rewrite IH. apply perm_swap.
Qed.

Lemma order_by_perm {A : Type} (leb : A -> A -> bool) (l : list A) :
  Permutation (order_by leb l) l.
Proof.
  induction l as [|x l IH]; simpl; [constructor|].
  rewrite insert_in_order_perm. constructor. exact IH.
Qed.

Lemma order_by_In {A : Type} (leb : A -> A -> bool) (l : list A) (a : A) :
  In a (order_by leb l) <-> In a l.
Proof.
  split; apply Permutation_in; [|symmetry]; apply order_by_perm.
Qed.

Lemma insert_in_order_sorted {A : Type} (leb : A -> A -> bool) (x : A) (l : list A) :
  (forall a b, leb a b = false -> leb b a = true) ->
  Sorted (fun a b => leb a b = true) l ->
  Sorted (fun a b => leb a b = true) (insert_in_order leb x l).
Proof.
  intros Htotal Hl. induction Hl as [|y l Hl IH Hhd]; simpl.
  - repeat constructor.
  - destruct (leb x y) eqn:E.
    + constructor; [constructor; assumption | constructor; exact E].
    + constructor; [exact IH|].
      destruct Hhd as [|z l' Hyz]; simpl.
      * constructor. apply Htotal. exact E.
      * destruct (leb x z); constructor; [apply Htotal; exact E | exact Hyz].
Qed.

Lemma order_by_sorted {A : Type} (leb : A -> A -> bool) (l : list A) :
  (forall a b, leb a b = false -> leb b a = true) ->
  Sorted (fun a b => leb a b = true) (order_by leb l).
Proof.
  intros Htotal. induction l as [|x l IH]; simpl; [constructor|].
  apply insert_in_order_sorted; assumption.
Qed.

Lemma Sorted_impl {A : Type} (R S : A -> A -> Prop) (l : list A) :
  (forall a b, R a b -> S a b) -> Sorted R l -> Sorted S l.
Proof.
  intros H Hl. induction Hl as [|a l Hl IH Hhd]; constructor; [exact IH|].
  destruct Hhd; constructor. auto.
Qed.

Example monthly_packages_by_price :
  map (fun r => (lookup "name" r, lookup "price" r))
      (get_packages_by_type Fixtures.catalogue "monthly")
  = [ (Some (SText "1 Mbps"), Some (SInt 300));
      (Some (SText "2 Mbps"), Some (SInt 500));
      (Some (SText "5 Mbps"), Some (SInt 900));
      (Some (SText "10 Mbps"), Some (SInt 1500));
      (Some (SText "20 Mbps"), Some (SInt 2500)) ].
Proof. reflexivity. Qed.

Example catalogue_by_type_then_price :
  map p_id (select_all_packages Fixtures.catalogue) = [4; 3; 2; 1; 8; 9; 10; 11; 12; 5; 6; 7].
Proof. reflexivity. Qed.

(** X13. The two catalogue listings show the active packages and only
    those: [get_packages_by_type] lists exactly the active packages of
    the type asked for, cheapest first, and [get_all_packages] lists
    exactly the active packages, by type and, within a type, cheapest
    first; an inactive package is in neither. *)
Theorem catalogue_listings db package_type :
  (forall r, In r (get_packages_by_type db package_type) <->
             exists p, r = package_dict p /\ In p (rows (packages db)) /\
                       p_package_type p = package_type /\ p_is_active p = true) /\
  Sorted (fun a b => p_price a <= p_price b) (select_packages_by_type db package_type) /\
  (forall r, In r (get_all_packages db) <->
             exists p, r = package_dict p /\ In p (rows (packages db)) /\
                       p_is_active p = true) /\
  Sorted (fun a b => (p_package_type a <? p_package_type b)%string = true \/
                     (p_package_type a = p_package_type b /\ p_price a <= p_price b))
         (select_all_packages db).
Proof.
  split; [|split; [|split]].
  - intros r. unfold get_packages_by_type, select_packages_by_type.
    rewrite in_map_iff. split.
    + intros (p & <- & Hin). apply order_by_In in Hin. apply filter_In in Hin.
      destruct Hin as [Hin Hf]. apply andb_true_iff in Hf. destruct Hf as [Hty Hact].
      apply String.eqb_eq in Hty. exists p. auto.
    + intros (p & -> & Hin & Hty & Hact). exists p. split; [reflexivity|].
      apply order_by_In. apply filter_In. split; [exact Hin|].
      apply andb_true_iff. split; [apply String.eqb_eq; exact Hty | exact Hact].
  - apply (Sorted_impl (fun a b => price_asc a b = true)).
    + intros a b H. apply Z.leb_le. exact H.
    + apply order_by_sorted. intros a b H. unfold price_asc in *.
      apply Z.leb_le. apply Z.leb_gt in H. lia.
  - intros r. unfold get_all_packages, select_all_packages.
    rewrite in_map_iff. split.
    + intros (p & <- & Hin). apply order_by_In in Hin. apply filter_In in Hin.
      exists p. tauto.
    + intros (p & -> & Hin & Hact). exists p. split; [reflexivity|].
      apply order_by_In. apply filter_In. auto.
  - apply (Sorted_impl (fun a b => type_then_price_asc a b = true)).
    + intros a b H. unfold type_then_price_asc, String.ltb in *.
      destruct (String.compare _ _) eqn:C; [right | left; reflexivity | discriminate].
      split; [apply String.compare_eq_iff; exact C | apply Z.leb_le; exact H].
    + apply order_by_sorted. intros a b H. unfold type_then_price_asc in *.
      rewrite String.compare_antisym.
      destruct (String.compare (p_package_type a) (p_package_type b)); simpl.
      * apply Z.leb_le. apply Z.leb_gt in H. lia.
      * discriminate.
      * reflexivity.
Qed.

Lemma find_unique {A : Type} (key : A -> Z) (f : A -> bool) (l : list A) (a : A) :
  NoDup (map key l) ->
  In a l -> f a = true ->
  (forall b, f b = true -> key b = key a) ->
  find f l = Some a.
Proof.
  intros Hnd Hin Ha Hkey. induction l as [|b l IH]; simpl; [contradiction|].
  inversion Hnd as [|? ? Hnotin Hnd']; subst.
  destruct (f b) eqn:Hb.
  - destruct Hin as [->|Hin]; [reflexivity|].
    exfalso. apply Hnotin. rewrite (Hkey b Hb). apply in_map. exact Hin.
  - destruct Hin as [->|Hin]; [congruence|]. apply IH; assumption.
Qed.

Lemma insert_packages_counter current_timestamp ps (t : table package) :
  last_rowid (insert_packages current_timestamp ps t)
  = last_rowid t + Z.of_nat (List.length ps).
Proof.
  revert t. induction ps as [|[[[[[[name description] price] hours] gb] mbps] ty] ps IH];
    intros t.
  - simpl. lia.
  - cbn [insert_packages]. rewrite IH. cbn [last_rowid List.length]. lia.
Qed.

(** The catalogue is empty and unnumbered, or it is the one
    [insert_default_packages] left, numbered up to 12. *)
Local Abbreviation catalogue_ok db :=
  ((rows (packages db) = [] /\ last_rowid (packages db) = 0) \/
   (rows (packages db) <> [] /\ last_rowid (packages db) = 12)).

Lemma catalogue_ok_perform m op db : catalogue_ok db -> catalogue_ok (System.perform m op db).
Proof.
  intros Hok. destruct op; cbn [System.perform].
  - unfold init_database, insert_default_packages.
    destruct (insert_packages_rows (System.current_timestamp m) default_packages
                (packages db)) as (more & Hrows & Hlen & _).
    pose proof (insert_packages_counter (System.current_timestamp m) default_packages
                  (packages db)) as Hlast.
    destruct (rows (packages db)) as [|p ps] eqn:E.
    + change (0 <? Z.of_nat (@List.length package [])) with false. cbv iota.
      cbn [packages with_packages]. right.
      destruct Hok as [[_ H0]|[Hne _]]; [|elim Hne; reflexivity].
      split.
      * rewrite Hrows. destruct more; [discriminate Hlen | discriminate].
      * rewrite Hlast, H0. reflexivity.
    + change (0 <? Z.of_nat (List.length (p :: ps))) with true. cbv iota.
      rewrite E. exact Hok.
  - unfold create_mac_user. destruct (existsb _ _); exact Hok.
  - unfold delete_mac_user. destruct (_ =? 0); exact Hok.
  - unfold create_user. destruct (existsb _ _); exact Hok.
  - unfold update_last_login, bind_int. destruct (fits_int64 user_id); exact Hok.
  - unfold create_transaction, bind_int.
    destruct (fits_int64 user_id); [|exact Hok].
    destruct (fits_int64 package_id); [|exact Hok]. cbn [bind].
    destruct (numeric_affinity amount); exact Hok.
  - unfold update_transaction_status, bind_int.
    destruct (fits_int64 transaction_id); exact Hok.
  - destruct (assign_package_to_user _ _ _ _) as [db'|e] eqn:H; [|exact Hok].
    apply assign_package_to_user_inv in H. destruct H as (p & e & _ & _ & ->). exact Hok.
  - pose proof (activate_rows_store rt (System.now m) db user_id package_id) as H.
    destruct (Endpoints.activate_user_package _ _ _ _ _) as [db' [made r]]. cbn [fst].
    destruct H as [->|(H & _)]; [exact Hok|].
    apply assign_package_to_user_inv in H. destruct H as (p & e & _ & _ & ->). exact Hok.
  - exact Hok.
  - exact Hok.
Qed.

Lemma catalogue_ok_run ops db : catalogue_ok db -> catalogue_ok (System.run ops db).
Proof.
  revert db. induction ops as [|[m op] ops IH]; intros db Hdb; simpl; [exact Hdb|].
  apply IH. apply catalogue_ok_perform. exact Hdb.
Qed.

(** X14. In every store reached from the freshly created database a
    package can be fetched by id exactly when it is listed:
    [get_package_by_id] returns a row for an id if and only if that row,
    with that id, is in [get_all_packages]. *)
Theorem package_by_id_iff_listed (ops : list (System.moment * System.operation)) id r :
  get_package_by_id (System.run ops empty) id = Ok (Some r) <->
  In r (get_all_packages (System.run ops empty)) /\ lookup "id" r = Some (SInt id).
Proof.
  pose proof (store_ok_run ops empty store_ok_empty) as (_ & (Hnd & Hall & _) & _).
  pose proof (catalogue_ok_run ops empty (or_introl (conj eq_refl eq_refl))) as Hcat.
  set (db := System.run ops empty) in *.
  unfold get_package_by_id, get_all_packages, select_all_packages. split.
  - intros H. destruct (bind_int id) as [bound|e] eqn:Hb; [|discriminate].
    apply bind_int_inv in Hb. destruct Hb as [-> _]. cbn [bind] in H.
    destruct (find_package db id) as [p|] eqn:Hp; [|discriminate].
    injection H as <-. apply find_package_sound in Hp. destruct Hp as (Hin & Hid & Hact).
    split; [|simpl; rewrite Hid; reflexivity].
    apply in_map. apply order_by_In. apply filter_In. auto.
  - intros [Hin Hid]. apply in_map_iff in Hin. destruct Hin as (p & <- & Hin).
    apply order_by_In in Hin. apply filter_In in Hin. destruct Hin as [Hin Hact].
    simpl in Hid. injection Hid as Hid.
    assert (Hfits : fits_int64 id = true).
    { rewrite Forall_forall in Hall. specialize (Hall p Hin).
      unfold fits_int64, int64_min, int64_max.
      apply andb_true_iff. split; apply Z.leb_le; destruct Hcat as [[_ H]|[_ H]]; lia. }
    rewrite (bind_int_fits _ Hfits). cbn [bind].
    unfold find_package.
    rewrite (find_unique p_id _ _ p Hnd Hin); [reflexivity | |].
    + rewrite Hid, Z.eqb_refl, Hact. reflexivity.
    + intros b Hb. apply andb_true_iff in Hb. destruct Hb as [Hb _].
      apply Z.eqb_eq in Hb. congruence.
Qed.

Example device_listing_of_the_fixtures :
  map (fun r => (lookup "mac_address" r, lookup "password" r))
      (get_all_mac_users Fixtures.one_user)
  = [(Some (SText "AA:BB:CC:DD:EE:FF"), None)].
Proof. reflexivity. Qed.

(** X15. [get_all_mac_users] lists exactly the users that have a MAC
    address, newest first, without the password column; whoever
    [get_user_by_mac] finds is in the list. *)
Theorem mac_users_listing db :
  (forall u, In u (select_all_mac_users db) <->
             In u (rows (users db)) /\ u_mac_address u <> None) /\
  Sorted (fun u v => u_created_at v <= u_created_at u) (select_all_mac_users db) /\
  (forall r, In r (get_all_mac_users db) -> lookup "password" r = None) /\
  (forall mac_address r,
     get_user_by_mac db mac_address = Some r ->
     exists u, In u (select_all_mac_users db) /\ r = user_dict u /\
               u_mac_address u = Some mac_address).
Proof.
  assert (Hin : forall u, In u (select_all_mac_users db) <->
                          In u (rows (users db)) /\ u_mac_address u <> None).
  { intros u. unfold select_all_mac_users. rewrite order_by_In, filter_In.
    destruct (u_mac_address u); split; intros [H1 H2]; split; auto; congruence. }
  split; [exact Hin|]. split; [|split].
  - apply (Sorted_impl (fun a b => newest_user_first a b = true)).
    + intros a b H. apply Z.leb_le. exact H.
    + apply order_by_sorted. intros a b H. unfold newest_user_first in *.
      apply Z.leb_le. apply Z.leb_gt in H. lia.
  - intros r Hr. unfold get_all_mac_users in Hr. apply in_map_iff in Hr.
    destruct Hr as (u & <- & _). reflexivity.
  - intros mac_address r H. unfold get_user_by_mac in H.
    destruct (find _ (rows (users db))) as [u|] eqn:Hfind; [|discriminate].
    injection H as <-. apply find_some in Hfind. destruct Hfind as [Hu Hmac].
    destruct (u_mac_address u) as [m|] eqn:Hm; [|discriminate].
    simpl in Hmac. apply String.eqb_eq in Hmac. subst m.
    exists u. split; [|auto]. apply Hin. split; [exact Hu | congruence].
Qed.

Example transactions_of_the_fixtures :
  (listed <- get_user_transactions Fixtures.one_completed 1 ;;
   Ok (map (fun r => (lookup "id" r, lookup "amount" r, lookup "status" r,
                      lookup "package_name" r))
           listed))
  = Ok [(Some (Plain (SInt 1)), Some (Plain (SInt 500)), Some (Plain (SText "completed")),
         Some (Plain (SText "2 Mbps")))].
Proof. reflexivity. Qed.

Example transaction_for_a_missing_package_is_not_listed :
  (created <- create_transaction Fixtures.noon Fixtures.noon Fixtures.one_user
                1 99 500%float "mpesa" "254712345678" None ;;
   get_user_transactions (fst created) 1)
  = Ok [].
Proof. reflexivity. Qed.

Example amount_with_cents_is_kept :
  (created <- create_transaction Fixtures.noon Fixtures.noon Fixtures.one_user
                1 9 499.5%float "mpesa" "254712345678" None ;;
   listed <- get_user_transactions (fst created) 1 ;;
   Ok (lookup "amount" (snd created), map (lookup "amount") listed))
  = Ok (Some (Float 499.5%float), [Some (Float 499.5%float)]).
Proof. reflexivity. Qed.

Example amount_that_is_not_a_number_is_refused :
  create_transaction Fixtures.noon Fixtures.noon Fixtures.one_user
    1 9 nan "mpesa" "254712345678" None
  = Raise (Exn "IntegrityError" [Lit "NOT NULL constraint failed: transactions.amount"]).
Proof. reflexivity. Qed.

(** X16. [get_user_transactions] lists a transaction of the user once
    for every package row, active or not, that has the transaction's
    package id, and lists nothing else, newest first: a transaction
    whose package id no package has is left out, and no transaction of
    another user is shown. A user id that is not a 64-bit integer is not
    bound: the listing raises [OverflowError]. *)
Theorem user_transactions_listing db user_id :
  (forall t p, In (t, p) (select_user_transactions db user_id) <->
               In t (rows (transactions db)) /\ t_user_id t = user_id /\
               In p (rows (packages db)) /\ p_id p = t_package_id t) /\
  Sorted (fun a b => t_created_at (fst b) <= t_created_at (fst a))
         (select_user_transactions db user_id) /\
  get_user_transactions db user_id
  = if fits_int64 user_id
    then Ok (map transaction_dict (select_user_transactions db user_id))
    else Raise int_too_large.
Proof.
  split; [|split; [|unfold get_user_transactions, bind_int;
                    destruct (fits_int64 user_id); reflexivity]].
  - intros t p. unfold select_user_transactions. rewrite order_by_In, in_flat_map. split.
    + intros (t' & Ht' & Hin). destruct (t_user_id t' =? user_id) eqn:E; [|contradiction].
      apply in_map_iff in Hin. destruct Hin as (p' & Heq & Hp').
      injection Heq as -> ->. apply filter_In in Hp'. destruct Hp' as [Hp Hid].
      apply Z.eqb_eq in E. apply Z.eqb_eq in Hid. auto.
    + intros (Ht & Hu & Hp & Hid). exists t. split; [exact Ht|].
      rewrite Hu, Z.eqb_refl. apply in_map. apply filter_In. split; [exact Hp|].
      rewrite Hid. apply Z.eqb_refl.
  - apply (Sorted_impl (fun a b => newest_transaction_first a b = true)).
    + intros a b H. apply Z.leb_le. exact H.
    + apply order_by_sorted. intros a b H. unfold newest_transaction_first in *.
      apply Z.leb_le. apply Z.leb_gt in H. lia.
Qed.

End ListingFacts.

(* ===================================================================== *)
(** * Further properties of the STK push client                          *)
(* ===================================================================== *)

Section PushFacts.
Import Py Mpesa.

(** X17. [get_access_token] returns a token exactly when the token
    request is answered 200 with a JSON object that has an
    [access_token]; in every other case, a transport error, another
    status, a body that is not JSON or not an object, a missing key, it
    raises an exception whose text begins ['Access token error: ']. *)
Theorem access_token_iff_granted gw self :
  (forall tok,
     snd (get_access_token gw self) = Ok tok <->
     exists resp items,
       requests_get gw (base_url self ++ "/oauth/v1/generate?grant_type=client_credentials")
                    (consumer_key self, consumer_secret self) = Ok resp /\
       status_code resp = 200 /\
       json resp = Ok (VDict items) /\
       lookup "access_token" items = Some tok) /\
  (forall e,
     snd (get_access_token gw self) = Raise e ->
     exists msg, e = Exception (Lit "Access token error: " :: msg)).
Proof.
  unfold get_access_token, try_except, io_bind, pure. split.
  - intros tok. split.
    + destruct (requests_get gw _ _) as [resp|e]; [|discriminate].
      destruct (status_code resp =? 200) eqn:Hcode; [|discriminate].
      destruct (json resp) as [data|e] eqn:Hjson; [|discriminate].
      destruct data as [| | | | | |items]; try discriminate.
      simpl. destruct (lookup "access_token" items) as [v|] eqn:Hl; [|discriminate].
      simpl. intros H. injection H as <-.
      exists resp, items. apply Z.eqb_eq in Hcode. auto.
    + intros (resp & items & -> & Hcode & Hjson & Hl).
      apply Z.eqb_eq in Hcode. rewrite Hcode, Hjson. simpl. rewrite Hl. reflexivity.
  - intros e.
    repeat (next_case; cbn [snd]); simpl; intros H;
      first [discriminate H | injection H as <-; eexists; reflexivity].
Qed.

Example push_after_token :
  map (fun c => match c with Get _ _ => "GET" | Post _ _ _ => "POST" end)
      (fst (process_payment Fixtures.accepting_gateway Fixtures.clock
              (VStr "0712345678") (VInt 500) (VStr "2 Mbps") (VStr "guest")))
  = ["GET"; "POST"].
Proof. reflexivity. Qed.

(** X18. [initiate_stk_push] asks for a token first and sends at most
    one push after it: its calls are the token request alone, or the
    token request followed by one push. The push is sent exactly when
    [get_access_token] returned a token, and it carries that token as
    its bearer authorization. *)
Theorem push_follows_token gw now1 now2 self phone_number amount package_name
    account_reference callback_url :
  (fst (initiate_stk_push gw now1 now2 self phone_number amount package_name
          account_reference callback_url)
   = [Get (base_url self ++ "/oauth/v1/generate?grant_type=client_credentials")
          (consumer_key self, consumer_secret self)]
   \/ exists headers data,
        fst (initiate_stk_push gw now1 now2 self phone_number amount package_name
               account_reference callback_url)
        = [Get (base_url self ++ "/oauth/v1/generate?grant_type=client_credentials")
               (consumer_key self, consumer_secret self);
           Post (base_url self ++ "/mpesa/stkpush/v1/processrequest") headers data]) /\
  (forall url headers data,
     In (Post url headers data)
        (fst (initiate_stk_push gw now1 now2 self phone_number amount package_name
                account_reference callback_url)) ->
     exists tok, snd (get_access_token gw self) = Ok tok /\
                 lookup "Authorization" headers = Some [Lit "Bearer "; Str tok]) /\
  (forall tok, snd (get_access_token gw self) = Ok tok ->
     exists url headers data,
       In (Post url headers data)
          (fst (initiate_stk_push gw now1 now2 self phone_number amount package_name
                  account_reference callback_url))).
Proof.
  unfold initiate_stk_push.
  destruct (get_access_token_calls gw self) as [r Hr]. rewrite Hr. simpl snd.
  unfold try_except, io_bind, pure.
  destruct r as [access_token|e].
  - split; [|split].
    + right. repeat (next_case; cbn [fst]); simpl; eexists; eexists; reflexivity.
    + intros url headers data H. exists access_token. split; [reflexivity|].
      revert H. repeat (next_case; cbn [fst]); simpl;
        (intros [H|[H|[]]]; [discriminate|]); injection H as _ <- _; reflexivity.
    + intros tok _.
      repeat (next_case; cbn [fst]); simpl; do 3 eexists; right; left; reflexivity.
  - split; [|split].
    + left. reflexivity.
    + simpl. intros url headers data [H|[]]. discriminate.
    + intros tok H. discriminate.
Qed.

(** The push as [initiate_stk_push] sends it and what becomes of it. *)
Lemma initiate_stk_push_success_iff gw now1 now2 self phone_number amount package_name
    account_reference callback_url :
  exists made d,
    initiate_stk_push gw now1 now2 self phone_number amount package_name
                      account_reference callback_url = (made, Ok d) /\
    (lookup "success" d = Some (Val (VBool true)) <->
     exists url headers data resp items,
       In (Post url headers data) made /\
       requests_post gw url headers data = Ok resp /\
       status_code resp = 200 /\
       json resp = Ok (VDict items)).
Proof.
  unfold initiate_stk_push.
  destruct (get_access_token_calls gw self) as [r ->].
  unfold try_except, io_bind, pure.
  destruct r as [access_token|e].
  2:{ eexists; eexists; split; [reflexivity|]. split; [discriminate|].
      intros (url & headers & data & resp & items & [H|[]] & _). discriminate. }
  destruct (requests_post gw _ _ _) as [resp|e] eqn:Hpost.
  2:{ eexists; eexists; split; [reflexivity|]. split; [discriminate|].
      intros (url & headers & data & resp & items & Hin & Hp & _).
      simpl in Hin. destruct Hin as [H|[H|[]]]; [discriminate|].
      injection H as <- <- <-. simpl in Hp, Hpost. rewrite Hpost in Hp. discriminate. }
  destruct (status_code resp =? 200) eqn:Hcode.
  2:{ eexists; eexists; split; [reflexivity|]. split; [discriminate|].
      intros (url & headers & data & resp' & items & Hin & Hp & Hc & _).
      simpl in Hin. destruct Hin as [H|[H|[]]]; [discriminate|].
      injection H as <- <- <-. simpl in Hp, Hpost. rewrite Hpost in Hp.
      injection Hp as <-. apply Z.eqb_neq in Hcode. contradiction. }
  destruct (json resp) as [result|e] eqn:Hjson.
  2:{ eexists; eexists; split; [reflexivity|]. split; [discriminate|].
      intros (url & headers & data & resp' & items & Hin & Hp & _ & Hj).
      simpl in Hin. destruct Hin as [H|[H|[]]]; [discriminate|].
      injection H as <- <- <-. simpl in Hp, Hpost. rewrite Hpost in Hp.
      injection Hp as <-. congruence. }
  destruct result as [| | | | | |items];
    try (eexists; eexists; split; [reflexivity|]; split; [discriminate|];
         intros (url & headers & data & resp' & items' & Hin & Hp & _ & Hj);
         simpl in Hin; destruct Hin as [H|[H|[]]]; [discriminate|];
         injection H as <- <- <-; simpl in Hp, Hpost; rewrite Hpost in Hp;
         injection Hp as <-; congruence).
  cbn [bind]. rewrite !get_dict. cbn [bind].
  eexists; eexists; split; [reflexivity|]. split; [|reflexivity].
  intros _. do 5 eexists. split; [right; left; reflexivity|].
  split; [exact Hpost|]. split; [apply Z.eqb_eq; exact Hcode | exact Hjson].
Qed.

Lemma process_payment_success_iff gw now phone_number amount package_name user_id :
  exists made d,
    process_payment gw now phone_number amount package_name user_id = (made, Ok d) /\
    (lookup "success" d = Some (Val (VBool true)) <->
     exists url headers data resp items,
       In (Post url headers data) made /\
       requests_post gw url headers data = Ok resp /\
       status_code resp = 200 /\
       json resp = Ok (VDict items)).
Proof.
  destruct (format_phone_number phone_number) as [formatted|e] eqn:Hf.
  - rewrite (process_payment_formatted _ _ _ _ _ _ _ Hf).
    apply initiate_stk_push_success_iff.
  - unfold process_payment. rewrite Hf. unfold try_except, io_bind, pure.
    eexists; eexists; split; [reflexivity|]. split; [discriminate|].
    intros (url & headers & data & resp & items & [] & _).
Qed.

(** X19. [process_payment] reports success exactly when a push was sent
    and the gateway answered it with status 200 and a JSON object;
    every other course, from a phone number that is not a string to a
    refusal by the gateway, ends in [success] false. *)
Theorem payment_succeeds_iff_push_accepted gw now phone_number amount package_name user_id :
  exists made d,
    process_payment gw now phone_number amount package_name user_id = (made, Ok d) /\
    (lookup "success" d = Some (Val (VBool true)) <->
     exists url headers data resp items,
       In (Post url headers data) made /\
       requests_post gw url headers data = Ok resp /\
       status_code resp = 200 /\
       json resp = Ok (VDict items)) /\
    (lookup "success" d = Some (Val (VBool true)) \/
     lookup "success" d = Some (Val (VBool false))).
Proof.
  destruct (process_payment_success_iff gw now phone_number amount package_name user_id)
    as (made & d & Heq & Hiff).
  exists made, d. split; [exact Heq|]. split; [exact Hiff|].
  destruct (process_payment_returns gw now phone_number amount package_name user_id)
    as (made' & d' & Heq' & Hd).
  rewrite Heq in Heq'. injection Heq' as <- <-.
  destruct Hd as [[H _]|[H _]]; auto.
Qed.

End PushFacts.

(* ===================================================================== *)
(** * Further properties of the payment endpoints                        *)
(* ===================================================================== *)

Section InitiationFacts.
Import Py Database Endpoints.

Example initiation_reply_carries_the_checkout_id :
  option_map (fun r => (status r, lookup "checkoutRequestID" (body r)))
    (match snd (snd (initiate_payment Fixtures.accepting_gateway Fixtures.clock
                       (Ok (VDict [ ("phoneNumber", VStr "0712345678");
                                    ("packageId", VInt 9); ("amount", VInt 500);
                                    ("packageName", VStr "2 Mbps") ]))
                       Fixtures.one_user)) with
     | Ok r => Some r
     | Raise _ => None
     end)
  = Some (200, Some (Val (VStr "ws_CO_191220191020363925"))).
Proof. reflexivity. Qed.

Ltac refused :=
  eexists; eexists; split; [reflexivity|]; cbn [status];
  split; [auto|]; split;
  [ intros H; discriminate H
  | intros (? & ? & ? & ? & ? & Hin & _); simpl in Hin; contradiction ].

(** X20. [initiate_payment] always answers, with status 200, 400 or
    500. It answers 200 exactly when a push was sent and the gateway
    answered it with status 200 and a JSON object, and the reply then
    carries that object's [CheckoutRequestID] (None when it has none) as
    [checkoutRequestID]. *)
Theorem initiation_reply gw now request_json db :
  exists made r,
    snd (initiate_payment gw now request_json db) = (made, Ok r) /\
    (status r = 200 \/ status r = 400 \/ status r = 500) /\
    (status r = 200 ->
     exists url headers data resp items,
       In (Mpesa.Post url headers data) made /\
       Mpesa.requests_post gw url headers data = Ok resp /\
       Mpesa.status_code resp = 200 /\
       Mpesa.json resp = Ok (VDict items) /\
       lookup "checkoutRequestID" (body r)
       = Some (Val (match lookup "CheckoutRequestID" items with
                    | Some v => v
                    | None => VNone
                    end))) /\
    ((exists url headers data resp items,
        In (Mpesa.Post url headers data) made /\
        Mpesa.requests_post gw url headers data = Ok resp /\
        Mpesa.status_code resp = 200 /\
        Mpesa.json resp = Ok (VDict items)) ->
     status r = 200).
Proof.
  unfold initiate_payment, required_fields, try_except, io_bind, pure.
  destruct request_json as [v|e]; [|cbn [snd]; refused].
  destruct v as [| | | | | |items];
    cbn [snd fst bind first_missing contains getitem];
    try (repeat (next_case; cbn [snd fst]); refused).
  destruct (lookup "phoneNumber" items) as [phone_number|]; [|refused].
  destruct (lookup "packageId" items) as [package_id|]; [|refused].
  destruct (lookup "amount" items) as [amount|]; [|refused].
  destruct (lookup "packageName" items) as [package_name|]; [|refused].
  rewrite get_dict.
  set (user_id := match lookup "username" items with Some x => x | None => VStr "guest" end).
  destruct (process_payment_success_iff gw now phone_number amount package_name user_id)
    as (made & d & Heq & Hiff).
  destruct (process_payment_returns gw now phone_number amount package_name user_id)
    as (made' & d' & Heq' & Hd).
  rewrite Heq in Heq'. injection Heq' as <- <-.
  rewrite Heq.
  destruct Hd as [[Hs _]|[Hs (url & headers & data & resp & items' & Hin & Hp & Hc & Hj & Hid)]];
    rewrite Hs; cbn [entry_truthy truthy app].
  - eexists; eexists; split; [reflexivity|]. cbn [status]. rewrite app_nil_r.
    split; [auto|]. split; [intros H; discriminate H|].
    intros H. apply Hiff in H. congruence.
  - eexists; eexists; split; [reflexivity|]. cbn [status jsonify]. rewrite app_nil_r.
    split; [auto|]. split; [|reflexivity].
    intros _. exists url, headers, data, resp, items'.
    repeat (split; [assumption|]).
    cbn [body lookup String.eqb Ascii.eqb Bool.eqb dict_get]. simpl. unfold dict_get.
    rewrite Hid. reflexivity.
Qed.

(** X21. The required fields are checked before anything is sent: when
    the request object lacks any of [phoneNumber], [packageId],
    [amount], [packageName], the reply is 400 with ['Missing required
    field: '] and a field that is missing, and no call to the gateway
    is made. *)
Theorem missing_field_stops_initiation gw now items db missing :
  In missing required_fields ->
  lookup missing items = None ->
  exists field,
    In field required_fields /\
    lookup field items = None /\
    initiate_payment gw now (Ok (VDict items)) db
    = (db, ([], Ok (mkReply [("error", Txt [Lit "Missing required field: "; Lit field])]
                            400))).
Proof.
  intros Hin Hnone.
  unfold initiate_payment, required_fields, try_except, io_bind, pure.
  cbn [snd fst bind first_missing contains getitem].
  destruct (lookup "phoneNumber" items) eqn:H1;
    [|exists "phoneNumber"; simpl; auto].
  destruct (lookup "packageId" items) eqn:H2;
    [|exists "packageId"; simpl; auto].
  destruct (lookup "amount" items) eqn:H3;
    [|exists "amount"; simpl; auto].
  destruct (lookup "packageName" items) eqn:H4;
    [|exists "packageName"; simpl; auto 6].
  exfalso. simpl in Hin.
  destruct Hin as [<-|[<-|[<-|[<-|[]]]]]; congruence.
Qed.

Lemma missing_field_stops_initiation_witness :
  exists field,
    In field required_fields /\
    lookup field [("phoneNumber", VStr "0712345678"); ("amount", VInt 500)] = None /\
    initiate_payment Fixtures.accepting_gateway Fixtures.clock
      (Ok (VDict [("phoneNumber", VStr "0712345678"); ("amount", VInt 500)]))
      Fixtures.one_user
    = (Fixtures.one_user,
       ([], Ok (mkReply [("error", Txt [Lit "Missing required field: "; Lit field])] 400))).
Proof.
  apply (missing_field_stops_initiation Fixtures.accepting_gateway Fixtures.clock
           [("phoneNumber", VStr "0712345678"); ("amount", VInt 500)]
           Fixtures.one_user "packageName").
  - simpl. auto.
  - reflexivity.
Defined.

(** X22. [activate_user_package] never returns normally and never
    changes the store. With an id that is not a 64-bit integer the
    lookup raises and the failure carries the [OverflowError]'s text;
    without the package or the user it raises
    ['Failed to activate package: Package or user not found']; both
    before any call to the router. With both rows, it connects and then,
    at the latest when it reads the package's ['validity'], which no
    package row has, it raises: the hotspot user is never updated. *)
Theorem activation_never_completes rt now db user_id package_id :
  exists made msg,
    activate_user_package rt now db user_id package_id
    = (db, (made, Raise (Exception (Lit "Failed to activate package: " :: msg)))) /\
    (forall name profile limit_uptime,
       ~ In (HotspotUserUpdate name profile limit_uptime) made) /\
    ((fits_int64 package_id = false \/ fits_int64 user_id = false) ->
     made = [] /\ msg = [Lit "Python int too large to convert to SQLite INTEGER"]) /\
    ((get_package_by_id db package_id = Ok None \/ get_user_by_id db user_id = Ok None) ->
     fits_int64 package_id = true -> fits_int64 user_id = true ->
     made = [] /\ msg = [Lit "Package or user not found"]) /\
    (forall package user,
       get_package_by_id db package_id = Ok (Some package) ->
       get_user_by_id db user_id = Ok (Some user) ->
       made = [GetApi] /\
       (get_api rt = Ok tt -> msg = [Lit "'"; Lit "validity"; Lit "'"])).
Proof.
  unfold activate_user_package, activate_rows, get_package_by_id, get_user_by_id, bind_int.
  unfold io_bind, pure.
  destruct (fits_int64 package_id); cbn [bind].
  2:{ exists [], [Lit "Python int too large to convert to SQLite INTEGER"].
      split; [reflexivity|]. split; [intros ? ? ? []|]. split; [auto|].
      split; [intros _ H; discriminate H | intros ? ? H; discriminate H]. }
  destruct (fits_int64 user_id); cbn [bind].
  2:{ exists [], [Lit "Python int too large to convert to SQLite INTEGER"].
      split; [reflexivity|]. split; [intros ? ? ? []|]. split; [auto|].
      split; [intros _ _ H; discriminate H | intros ? ? _ H; discriminate H]. }
  destruct (find_package db package_id) as [p|]; cbn [option_map].
  2:{ exists [], [Lit "Package or user not found"]. split; [reflexivity|].
      split; [intros ? ? ? []|]. split; [intros [H|H]; discriminate H|].
      split; [auto|]. intros ? ? H. discriminate H. }
  destruct (find _ (rows (users db))) as [u|]; cbn [option_map].
  2:{ exists [], [Lit "Package or user not found"]. split; [reflexivity|].
      split; [intros ? ? ? []|]. split; [intros [H|H]; discriminate H|].
      split; [auto|]. intros ? ? _ H. discriminate H. }
  destruct (get_api rt) as [[]|e].
  - exists [GetApi], [Lit "'"; Lit "validity"; Lit "'"]. split; [reflexivity|].
    split; [intros ? ? ? [H|[]]; discriminate H|].
    split; [intros [H|H]; discriminate H|].
    split; [intros [H|H]; discriminate H|]. intros ? ? _ _. auto.
  - exists [GetApi], (exn_str e). split; [reflexivity|].
    split; [intros ? ? ? [H|[]]; discriminate H|].
    split; [intros [H|H]; discriminate H|].
    split; [intros [H|H]; discriminate H|]. intros ? ? _ _. split; [reflexivity|].
    intros H. discriminate H.
Qed.

End InitiationFacts.

(* ===================================================================== *)
(** * Properties of the session endpoints                                *)
(* ===================================================================== *)

Section SessionFacts.
Import Py Endpoints Hotspot.

Example session_of_the_second_client :
  get_current_session Samples.busy_router (Some "10.5.50.3")
  = ([Connect; ActiveGet],
     Ok (jsonify
       [ ("username", Val (VStr "Guest"));
         ("address", Val (VStr "10.5.50.3"));
         ("mac-address", Val VNone);
         ("bytes-in", Val (VStr "1024"));
         ("bytes-out", Val (VInt 0));
         ("uptime", Val VNone);
         ("idle-time", Val VNone);
         ("session-time-left", Val VNone);
         ("profile", Val VNone);
         ("rate-limit", Val VNone);
         ("limit-uptime", Val VNone) ])).
Proof. reflexivity. Qed.

Example blocking_the_first_session :
  fst (block_user Samples.busy_router "*1A")
  = [ Connect; ActiveGet;
      AddressListAdd (Some "10.5.50.2") "blocked_users"
                     [Lit "Blocked user: "; Str (VStr "amina")];
      ActiveRemove "*1A" ].
Proof. reflexivity. Qed.

Lemma find_none_iff {A : Type} (f : A -> bool) (l : list A) :
  find f l = None <-> forall a, In a l -> f a = false.
Proof.
  split; [apply find_none|].
  induction l as [|a l IH]; simpl; [reflexivity|].
  intros H. rewrite (H a) by auto. apply IH. intros b Hb. apply H. auto.
Qed.

(** X23. [get_current_session] only reads from the router. It answers
    200 exactly when the router could be reached, listed its active
    sessions and one of them has the client's address; 404 exactly when
    it listed them and none has; and 500 otherwise. In a 200 reply the
    address is the client's own. *)
Theorem current_session_reply rt client_ip :
  exists made r,
    get_current_session rt client_ip = (made, Ok r) /\
    (forall c, In c made -> c = Connect \/ c = ActiveGet) /\
    (status r = 200 \/ status r = 404 \/ status r = 500) /\
    (status r = 200 <->
     connect rt = Ok tt /\
     exists sessions s,
       active_get rt = Ok sessions /\ In s sessions /\
       field_is s "address" client_ip = true) /\
    (status r = 404 <->
     connect rt = Ok tt /\
     exists sessions,
       active_get rt = Ok sessions /\
       forall s, In s sessions -> field_is s "address" client_ip = false) /\
    (status r = 200 ->
     lookup "address" (body r)
     = Some (Val (match client_ip with Some ip => VStr ip | None => VNone end))).
Proof.
  unfold get_current_session, try_except, io_bind, pure.
  destruct (connect rt) as [[]|e].
  2:{ eexists; eexists; split; [reflexivity|]. cbn [status].
      split; [simpl; intros c [<-|[]]; auto|]. split; [auto|].
      split; [split; [discriminate | intros [H _]; discriminate H]|].
      split; [split; [discriminate | intros [H _]; discriminate H]|]. discriminate. }
  destruct (active_get rt) as [sessions|e].
  2:{ eexists; eexists; split; [reflexivity|]. cbn [status].
      split; [simpl; intros c [<-|[<-|[]]]; auto|]. split; [auto|].
      split; [split; [discriminate | intros [_ (? & ? & H & _)]; discriminate H]|].
      split; [split; [discriminate | intros [_ (? & H & _)]; discriminate H]|].
      discriminate. }
  destruct (find _ sessions) as [s|] eqn:Hfind.
  - eexists; eexists; split; [reflexivity|]. cbn [status jsonify].
    apply find_some in Hfind. destruct Hfind as [Hin Hs].
    split; [simpl; intros c [<-|[<-|[]]]; auto|]. split; [auto|].
    split; [split; [intros _; split; [reflexivity|]; exists sessions, s; auto
                   | reflexivity]|].
    split.
    + split; [discriminate|]. intros [_ (sessions' & H & Hall)].
      injection H as <-. rewrite (Hall s Hin) in Hs. discriminate.
    + intros _. cbn [body]. unfold field_is in Hs. unfold field.
      simpl. destruct (lookup "address" s) as [a|], client_ip as [ip|];
        try discriminate; [|reflexivity].
      apply String.eqb_eq in Hs. subst. reflexivity.
  - eexists; eexists; split; [reflexivity|]. cbn [status].
    split; [simpl; intros c [<-|[<-|[]]]; auto|]. split; [auto|].
    split.
    + split; [discriminate|]. intros [_ (sessions' & s & H & Hin & Hs)].
      injection H as <-. rewrite (find_none _ _ Hfind s Hin) in Hs. discriminate.
    + split; [|discriminate]. split; [intros _|reflexivity].
      split; [reflexivity|]. exists sessions. split; [reflexivity|].
      apply find_none_iff. exact Hfind.
Qed.

(** X24. [block_user] never removes a session it has not first put on
    the [blocked_users] list: a removal is sent only for the id asked
    for and only after the router accepted the address of a listed
    session with that id. When no active session has the id, nothing is
    written to the router, and the reply still says the user was
    blocked. *)
Theorem block_user_order rt user_id :
  exists made r,
    block_user rt user_id = (made, Ok r) /\
    (forall id, In (ActiveRemove id) made ->
       id = user_id /\
       exists sessions s comment,
         active_get rt = Ok sessions /\ In s sessions /\
         field_is s ".id" (Some user_id) = true /\
         made = [ Connect; ActiveGet;
                  AddressListAdd (lookup "address" s) "blocked_users" comment;
                  ActiveRemove user_id ] /\
         address_list_add rt (lookup "address" s) "blocked_users" comment = Ok tt) /\
    (forall sessions,
       connect rt = Ok tt -> active_get rt = Ok sessions ->
       (forall s, In s sessions -> field_is s ".id" (Some user_id) = false) ->
       made = [Connect; ActiveGet] /\
       r = jsonify [("message", Txt [Lit "User blocked successfully"])]).
Proof.
  unfold block_user, try_except, io_bind, pure.
  destruct (connect rt) as [[]|e].
  2:{ eexists; eexists; split; [reflexivity|].
      split; [simpl; intros id [H|[]]; discriminate H|].
      intros sessions H. discriminate H. }
  destruct (active_get rt) as [sessions|e].
  2:{ eexists; eexists; split; [reflexivity|].
      split; [simpl; intros id [H|[H|[]]]; discriminate H|].
      intros sessions _ H. discriminate H. }
  destruct (find _ sessions) as [s|] eqn:Hfind.
  - apply find_some in Hfind. destruct Hfind as [Hin Hs].
    destruct (address_list_add rt _ _ _) as [[]|e] eqn:Hadd.
    + destruct (active_remove rt user_id) as [[]|e];
        (eexists; eexists; split; [reflexivity|]; split;
         [ simpl; intros id [H|[H|[H|[H|[]]]]]; try discriminate H;
           injection H as <-; split; [reflexivity|];
           eexists; eexists; eexists;
           split; [reflexivity|]; split; [exact Hin|]; split; [exact Hs|];
           split; [reflexivity | exact Hadd]
         | intros sessions' _ H Hall; injection H as <-;
           rewrite (Hall s Hin) in Hs; discriminate Hs ]).
    + eexists; eexists; split; [reflexivity|]. split.
      * simpl. intros id [H|[H|[H|[]]]]; discriminate H.
      * intros sessions' _ H Hall. injection H as <-.
        rewrite (Hall s Hin) in Hs. discriminate Hs.
  - eexists; eexists; split; [reflexivity|]. split.
    + simpl. intros id [H|[H|[]]]; discriminate H.
    + intros sessions' _ _ _. split; reflexivity.
Qed.

End SessionFacts.
